(** * parseCsv: the spot generator and the emitted [findNearbySpots]

    A shallow embedding of [scripts/parseCsv.py].  The script reads the rows of
    a CSV file, keeps the rows that describe a tourist spot, builds one record
    per kept row and prints the records into a TypeScript module together with
    a distance filter, [findNearbySpots].

    - Python text is a list of code points, so that [s[:150]] counts
      characters and not bytes.
    - A row is the dictionary [csv.DictReader] yields for a line: column
      name to cell.  A cell is the text of the field, or [None] when the
      line has fewer fields than the header.  [None] has no [strip]: the
      call raises [AttributeError], which the handler of the loop does not
      catch, and the script stops there.
    - Python's [float] and JavaScript's [Math.sin], [Math.cos] and
      [Math.atan2] are built-ins of the two languages; they are variables of
      the sections that use them.  Numbers are binary64 floats.
    - [random.randint] is an effect: the script is a tree whose nodes are the
      calls of [random.randint], and the tree is given its uniform
      semantics afterwards.
    - The loop is embedded up to the value of [spots] and [spot_id] after
      it, or at the uncaught exception; the printing of the module text and
      the writing of the file are not. *)

From Stdlib Require Import ZArith NArith List String Ascii QArith Lia.
From Stdlib Require Import Permutation Sorted DecimalString DecimalZ DecimalPos.
From Stdlib Require Import Floats.PrimFloat Floats.SpecFloat Floats.FloatOps.
From Stdlib Require Import Floats.FloatAxioms Uint63.
From Stdlib Require Import Reals.
From stdpp Require Import gmap.
Import ListNotations.

Local Open Scope Z_scope.
#[local] Set Warnings "-inexact-float".

(** ** Python text *)

Module Py.

(** A character is a Unicode code point; a [str] is a sequence of them. *)
Definition char : Type := N.
Definition str : Type := list char.

(** Source literals are written as UTF-8 and decoded to code points. *)
Fixpoint utf8_decode (bs : list N) (pending : nat) (acc : N) : str :=
  match bs with
  | [] => []
  | b :: bs' =>
      match pending with
      | O =>
          if (b <? 128)%N then b :: utf8_decode bs' 0 0%N
          else if (b <? 224)%N then utf8_decode bs' 1 (N.land b 31)
          else if (b <? 240)%N then utf8_decode bs' 2 (N.land b 15)
          else utf8_decode bs' 3 (N.land b 7)
      | S n =>
          let acc' := (acc * 64 + N.land b 63)%N in
          match n with
          | O => acc' :: utf8_decode bs' 0 0%N
          | S _ => utf8_decode bs' n acc'
          end
      end
  end.

Definition lit (s : string) : str :=
  utf8_decode (List.map N_of_ascii (list_ascii_of_string s)) 0 0%N.

(** [str.isspace] for one character: the code points CPython lists in
    [_PyUnicode_IsWhitespace]. *)
Definition isspace (c : char) : bool :=
  ((9 <=? c) && (c <=? 13) || (28 <=? c) && (c <=? 32)
   || (c =? 133) || (c =? 160) || (c =? 5760)
   || (8192 <=? c) && (c <=? 8202)
   || (c =? 8232) || (c =? 8233) || (c =? 8239) || (c =? 8287)
   || (c =? 12288))%N.

Fixpoint lstrip (s : str) : str :=
  match s with
  | [] => []
  | c :: s' => if isspace c then lstrip s' else s
  end.

Definition rstrip (s : str) : str := rev (lstrip (rev s)).

(** [s.strip()] *)
Definition strip (s : str) : str := rstrip (lstrip s).

Fixpoint startswith (s prefix : str) {struct prefix} : bool :=
  match prefix, s with
  | [], _ => true
  | _ :: _, [] => false
  | p :: prefix', c :: s' => (p =? c)%N && startswith s' prefix'
  end.

(** [sub in s] *)
Fixpoint contains (sub s : str) : bool :=
  startswith s sub ||
  match s with
  | [] => false
  | _ :: s' => contains sub s'
  end.

(** Truth value of a string: [if s], [not s]. *)
Definition truthy (s : str) : bool :=
  match s with [] => false | _ :: _ => true end.

(** [s[:n]] for [n >= 0] *)
Definition slice_to (n : nat) (s : str) : str := firstn n s.

(** [str(z)], as an f-string prints an [int]. *)
Definition str_of_int (z : Z) : str :=
  List.map N_of_ascii (list_ascii_of_string (NilZero.string_of_int (Z.to_int z))).

(** [any(f(x) for x in xs)] *)
Definition any {A : Type} (f : A -> bool) (xs : list A) : bool := existsb f xs.

End Py.

Arguments Py.lit _%_string.
Abbreviation str := Py.str.

(* ================================================================== *)
(** ** Programs that call [random.randint] *)

(** A program either returns, or calls [random.randint(a, b)] and goes on
    with the integer it is given. *)
Inductive rand (A : Type) : Type :=
| Ret (x : A)
| RandInt (a b : Z) (k : Z -> rand A).

Arguments Ret {A} x.
Arguments RandInt {A} a b k.

Fixpoint bind {A B : Type} (m : rand A) (f : A -> rand B) : rand B :=
  match m with
  | Ret x => f x
  | RandInt a b k => RandInt a b (fun n => bind (k n) f)
  end.

(** The integers [a, a+1, ..., b], the values [random.randint(a, b)] can
    return. *)
Definition interval (a b : Z) : list Z :=
  List.map (fun i => a + Z.of_nat i) (seq 0 (Z.to_nat (b - a + 1))).

(** The states a program can end in. *)
Fixpoint outcomes {A : Type} (m : rand A) : list A :=
  match m with
  | Ret x => [x]
  | RandInt a b k => flat_map (fun n => outcomes (k n)) (interval a b)
  end.

Definition Qsum (l : list Q) : Q := fold_right Qplus 0%Q l.

(** The probability that a program ends in a state satisfying [E], when
    every call of [random.randint(a, b)] is uniform on [a..b] and the calls
    are independent. *)
Fixpoint pr {A : Type} (m : rand A) (E : A -> bool) : Q :=
  match m with
  | Ret x => if E x then 1%Q else 0%Q
  | RandInt a b k =>
      (Qsum (List.map (fun n => pr (k n) E) (interval a b))
         / inject_Z (b - a + 1))%Q
  end.

(** Two programs that differ only in how their continuations are written. *)
Inductive same {A : Type} : rand A -> rand A -> Prop :=
| same_Ret x : same (Ret x) (Ret x)
| same_RandInt a b k k' :
    (forall n, same (k n) (k' n)) -> same (RandInt a b k) (RandInt a b k').

(* ================================================================== *)
(** ** The records *)

Record Coordinates : Type := {
  latitude : float;
  longitude : float
}.

(** A spot, as the script builds it and as the TypeScript module declares
    it.  The keys [openingHours] and [price] may be absent;
    [congestionLevel] is the integer [random.randint] returns, which
    [json.dumps] prints as it is. *)
Module Spot.
Record t : Type := mk {
  id : str;
  name : str;
  description : str;
  congestionLevel : Z;
  location : Coordinates;
  openingHours : option str;
  price : option str
}.

(** [spot['openingHours'] = v] and [spot['price'] = v] *)
Definition set_openingHours (v : str) (s : t) : t :=
  mk (id s) (name s) (description s) (congestionLevel s) (location s)
     (Some v) (price s).

Definition set_price (v : str) (s : t) : t :=
  mk (id s) (name s) (description s) (congestionLevel s) (location s)
     (openingHours s) (Some v).
End Spot.

(** The two module-level variables the loop updates. *)
Record state : Type := {
  spots : list Spot.t;
  spot_id : Z
}.

Definition initial : state := {| spots := []; spot_id := 1 |}.

(** [spots.append(spot); spot_id += 1] *)
Definition append_spot (st : state) (spot : Spot.t) : state :=
  {| spots := spots st ++ [spot]; spot_id := spot_id st + 1 |}.

(* ================================================================== *)
(** ** The generator *)

Definition exclude_keywords : list str :=
  [ Py.lit "センター"; Py.lit "駐車場"; Py.lit "駐輪場"; Py.lit "ホテル";
    Py.lit "宿"; Py.lit "サービス";
    Py.lit "イン"; Py.lit "休館中"; Py.lit "交流館";
    Py.lit "インフォメーション"; Py.lit "旅館";
    Py.lit "ホール"; Py.lit "プール"; Py.lit "タクシー" ].

(** A cell of a row: the text of a field, or Python's [None]. *)
Inductive cell : Type :=
| Text (s : str)
| PyNone.

(** The row [csv.DictReader] builds for a line: [dict(zip(fieldnames,
    fields))], a later column of the same name replacing an earlier one,
    and [None] (the [restval]) for the columns the line has no field for.
    The fields a line has beyond the header go under the key [None], which
    no lookup of the script reads; they are left out.  (The reader skips a
    line with no field at all, so [fields] is not empty.) *)
Fixpoint zip_cells (fieldnames fields : list str) : list (str * cell) :=
  match fieldnames, fields with
  | [], _ => []
  | key :: fieldnames', [] => (key, PyNone) :: zip_cells fieldnames' []
  | key :: fieldnames', field :: fields' =>
      (key, Text field) :: zip_cells fieldnames' fields'
  end.

Definition DictReader_row (fieldnames fields : list str) : gmap str cell :=
  fold_left (fun row '(key, v) => <[key := v]> row)
    (zip_cells fieldnames fields) ∅.

(** [row.get(key, '')]: the cell of the column, or the empty text when the
    row has no such column. *)
Definition get (row : gmap str cell) (key : str) : cell :=
  default (Text []) (row !! key).

Inductive exn : Type := ValueError | KeyError | AttributeError.

(** How one pass through the [try] suite ends: it falls off its end, it
    reaches a [continue], or it raises.  Each carries the variables as they
    are at that point. *)
Inductive completion : Type :=
| Normal (st : state)
| Continue (st : state)
| Raise (e : exn) (st : state).

(** How the loop body, and the loop, end: the script goes on with the
    variables [st], or an exception nothing catches stops it. *)
Inductive flow : Type :=
| Proceed (st : state)
| Uncaught (e : exn) (st : state).

Definition state_of (f : flow) : state :=
  match f with
  | Proceed st => st
  | Uncaught _ st => st
  end.

(** [v.strip()] and the rest of the suite, [rest]: [None] has no [strip],
    and the attribute lookup raises. *)
Definition strip_then (v : cell) (st : state)
    (rest : str -> rand completion) : rand completion :=
  match v with
  | Text s => rest (Py.strip s)
  | PyNone => Ret (Raise AttributeError st)
  end.

(** A statement and what follows it, when the statement may end in an
    uncaught exception. *)
Definition and_then (m : rand flow) (k : state -> rand flow) : rand flow :=
  bind m (fun f =>
    match f with
    | Proceed st => k st
    | Uncaught e st => Ret (Uncaught e st)
    end).

Section Generator.

(** Python's [float] on a string; [None] stands for [ValueError]. *)
Variable py_float : str -> option float.

(** The suite of the [try] statement, lines 24 to 82. *)
Definition try_suite (st : state) (row : gmap str cell) : rand completion :=
  strip_then (get row (Py.lit "名称")) st (fun name =>
  strip_then (get row (Py.lit "緯度")) st (fun lat_str =>
  strip_then (get row (Py.lit "経度")) st (fun lon_str =>
  strip_then (get row (Py.lit "説明")) st (fun text =>
  let description := Py.slice_to 150 text in
  if Py.any (fun keyword => Py.contains keyword name) exclude_keywords then
    Ret (Continue st)
  else
  strip_then (get row (Py.lit "開始時間")) st (fun start_time =>
  strip_then (get row (Py.lit "終了時間")) st (fun end_time =>
  strip_then (get row (Py.lit "利用可能日時特記事項")) st (fun time_note =>
  strip_then (get row (Py.lit "料金（基本）")) st (fun price_basic =>
  strip_then (get row (Py.lit "料金（詳細）")) st (fun price_detail =>
  if negb (Py.truthy name) || negb (Py.truthy lat_str)
     || negb (Py.truthy lon_str) then
    Ret (Continue st)
  else
  match py_float lat_str with
  | None => Ret (Raise ValueError st)
  | Some lat =>
  match py_float lon_str with
  | None => Ret (Raise ValueError st)
  | Some lon =>
  if (lat =? 0)%float || (lon =? 0)%float then
    Ret (Continue st)
  else
  RandInt 1 5 (fun congestion_level =>
  let spot :=
    Spot.mk
      (Py.lit "spot-" ++ Py.str_of_int (spot_id st))
      name
      (if Py.truthy description then description
       else name ++ Py.lit "の観光スポット")
      congestion_level
      {| latitude := lat; longitude := lon |}
      None None in
  let opening_hours :=
    if Py.truthy start_time && Py.truthy end_time then
      start_time ++ Py.lit "～" ++ end_time
    else if Py.truthy time_note then time_note
    else [] in
  let spot :=
    if Py.truthy opening_hours then Spot.set_openingHours opening_hours spot
    else spot in
  let spot :=
    if Py.truthy price_detail then Spot.set_price price_detail spot
    else if Py.truthy price_basic then Spot.set_price price_basic spot
    else spot in
  Ret (Normal (append_spot st spot)))
  end
  end))))))))).

(** The body of the [for] loop: the [try] statement with its handler,
    [except (ValueError, KeyError): continue].  An [AttributeError] passes
    the handler. *)
Definition for_body (st : state) (row : gmap str cell) : rand flow :=
  bind (try_suite st row) (fun c =>
  match c with
  | Normal st' => Ret (Proceed st')
  | Continue st' => Ret (Proceed st')
  | Raise ValueError st' => Ret (Proceed st')
  | Raise KeyError st' => Ret (Proceed st')
  | Raise AttributeError st' => Ret (Uncaught AttributeError st')
  end).

(** [for row in reader: ...] *)
Fixpoint for_rows (rows : list (gmap str cell)) (st : state) : rand flow :=
  match rows with
  | [] => Ret (Proceed st)
  | row :: rest => and_then (for_body st row) (for_rows rest)
  end.

(** The script up to line 87: the value of [spots] and [spot_id] after the
    loop, or the exception that stopped the script in it. *)
Definition generate (rows : list (gmap str cell)) : rand flow :=
  for_rows rows initial.

End Generator.

(* ================================================================== *)
(** ** The emitted TypeScript module *)

(** [Array.prototype.sort(comparefn)].  ECMAScript leaves the sequence of
    comparisons to the implementation and requires the sort to be stable;
    this is the stable insertion sort.  [b] goes before [a] only when
    [comparefn(a, b) > 0].  ([Array_sort_unique] below shows that the
    choice of algorithm does not matter for the comparison used here.) *)
Fixpoint Array_insert {A : Type} (comparefn : A -> A -> Z) (a : A)
    (l : list A) : list A :=
  match l with
  | [] => [a]
  | b :: l' =>
      if 0 <? comparefn a b then b :: Array_insert comparefn a l'
      else a :: l
  end.

Fixpoint Array_sort {A : Type} (comparefn : A -> A -> Z) (l : list A)
    : list A :=
  match l with
  | [] => []
  | a :: l' => Array_insert comparefn a (Array_sort comparefn l')
  end.

Section Nearby.

(** [Math.sin], [Math.cos] and [Math.atan2], which ECMAScript lets an
    implementation approximate; [Math.sqrt] is the IEEE square root. *)
Variables Math_sin Math_cos : float -> float.
Variable Math_atan2 : float -> float -> float.

(** [Math.PI], the double nearest to pi *)
Definition Math_PI : float := 0x1.921fb54442d18p+1%float.

(** The constant the generator prints into the module. *)
Variable KYOTO_SPOTS : list Spot.t.

Definition deg2rad (deg : float) : float := (deg * (Math_PI / 180))%float.

Definition getDistanceFromLatLonInKm (lat1 lon1 lat2 lon2 : float) : float :=
  let R := 6371%float in
  let dLat := deg2rad (lat2 - lat1)%float in
  let dLon := deg2rad (lon2 - lon1)%float in
  let a :=
    (Math_sin (dLat / 2) * Math_sin (dLat / 2) +
     Math_cos (deg2rad lat1) * Math_cos (deg2rad lat2) *
     Math_sin (dLon / 2) * Math_sin (dLon / 2))%float in
  let c := (2 * Math_atan2 (PrimFloat.sqrt a) (PrimFloat.sqrt (1 - a)))%float in
  let d := (R * c)%float in
  d.

(** [radiusKm] is [None] when the caller passes no second argument (or
    [undefined]); the parameter then takes its default, 5. *)
Definition findNearbySpots (currentLoc : Coordinates)
    (radiusKm : option float) : list Spot.t :=
  let radiusKm := default 5%float radiusKm in
  let filteredSpots :=
    List.filter (fun spot =>
      let dist :=
        getDistanceFromLatLonInKm
          (latitude currentLoc)
          (longitude currentLoc)
          (latitude (Spot.location spot))
          (longitude (Spot.location spot)) in
      (dist <=? radiusKm)%float) KYOTO_SPOTS in
  Array_sort (fun a b => Spot.congestionLevel a - Spot.congestionLevel b)
    filteredSpots.

End Nearby.

(* ================================================================== *)
(** ** Notions used in the statements *)

(** The nine columns the script reads, in the order it reads them. *)
Definition columns : list str :=
  [ Py.lit "名称"; Py.lit "緯度"; Py.lit "経度"; Py.lit "説明";
    Py.lit "開始時間"; Py.lit "終了時間"; Py.lit "利用可能日時特記事項";
    Py.lit "料金（基本）"; Py.lit "料金（詳細）" ].

(** The stripped text of a cell of [row], when the cell is text. *)
Definition stripped (row : gmap str cell) (key : str) : option str :=
  match get row key with
  | Text s => Some (Py.strip s)
  | PyNone => None
  end.

(** Whether the cell of [row] is [None]. *)
Definition missing (row : gmap str cell) (key : str) : bool :=
  match get row key with
  | Text _ => false
  | PyNone => true
  end.

(** Whether [row] stops the script: one of the four cells read before the
    keyword test is [None], or the name passes the keyword test and one of
    the five cells read after it is [None]. *)
Definition aborts (row : gmap str cell) : bool :=
  match stripped row (Py.lit "名称"), stripped row (Py.lit "緯度"),
        stripped row (Py.lit "経度"), stripped row (Py.lit "説明") with
  | Some name, Some _, Some _, Some _ =>
      negb (Py.any (fun keyword => Py.contains keyword name) exclude_keywords)
      && (missing row (Py.lit "開始時間") || missing row (Py.lit "終了時間")
          || missing row (Py.lit "利用可能日時特記事項")
          || missing row (Py.lit "料金（基本）")
          || missing row (Py.lit "料金（詳細）"))
  | _, _, _, _ => true
  end.

(** The rows the loop gets through: those before the first row that stops
    the script. *)
Fixpoint processed (rows : list (gmap str cell)) : list (gmap str cell) :=
  match rows with
  | [] => []
  | row :: rest => if aborts row then [] else row :: processed rest
  end.

(** A cell that is missing from the row or holds nothing but whitespace. *)
Definition blank (row : gmap str cell) (key : str) : Prop :=
  match row !! key with
  | None => True
  | Some (Text s) => Forall (fun c => Py.isspace c = true) s
  | Some PyNone => False
  end.

Section Notions.

Variable py_float : str -> option float.

(** What the record built from [row] looks like, when the counter is [k]
    and [random.randint] answers [c]. *)
Definition built_from (row : gmap str cell) (k c : Z) (s : Spot.t) : Prop :=
  Spot.id s = Py.lit "spot-" ++ Py.str_of_int k
  /\ stripped row (Py.lit "名称") = Some (Spot.name s)
  /\ Spot.name s <> []
  /\ Py.any (fun keyword => Py.contains keyword (Spot.name s))
       exclude_keywords = false
  /\ (exists text,
        stripped row (Py.lit "説明") = Some text
        /\ Spot.description s =
             (if Py.truthy text then Py.slice_to 150 text
              else Spot.name s ++ Py.lit "の観光スポット"))
  /\ Spot.congestionLevel s = c
  /\ (exists lat_str lon_str,
        stripped row (Py.lit "緯度") = Some lat_str
        /\ stripped row (Py.lit "経度") = Some lon_str
        /\ py_float lat_str = Some (latitude (Spot.location s))
        /\ py_float lon_str = Some (longitude (Spot.location s))
        /\ (latitude (Spot.location s) =? 0)%float = false
        /\ (longitude (Spot.location s) =? 0)%float = false)
  /\ (exists start_time end_time time_note,
        stripped row (Py.lit "開始時間") = Some start_time
        /\ stripped row (Py.lit "終了時間") = Some end_time
        /\ stripped row (Py.lit "利用可能日時特記事項") = Some time_note
        /\ Spot.openingHours s =
             (if Py.truthy start_time && Py.truthy end_time then
                Some (start_time ++ Py.lit "～" ++ end_time)
              else if Py.truthy time_note then Some time_note
              else None))
  /\ (exists price_basic price_detail,
        stripped row (Py.lit "料金（基本）") = Some price_basic
        /\ stripped row (Py.lit "料金（詳細）") = Some price_detail
        /\ Spot.price s =
             (if Py.truthy price_detail then Some price_detail
              else if Py.truthy price_basic then Some price_basic
              else None)).

(** Whether [row] passes every test of the loop body: its nine cells are
    text, the name has no excluded keyword, name and coordinates are not
    empty, and the coordinates are numbers other than 0. *)
Definition emits (row : gmap str cell) : bool :=
  match stripped row (Py.lit "名称"), stripped row (Py.lit "緯度"),
        stripped row (Py.lit "経度"), stripped row (Py.lit "説明") with
  | Some name, Some lat_str, Some lon_str, Some _ =>
      negb (Py.any (fun keyword => Py.contains keyword name) exclude_keywords)
      && negb (missing row (Py.lit "開始時間"))
      && negb (missing row (Py.lit "終了時間"))
      && negb (missing row (Py.lit "利用可能日時特記事項"))
      && negb (missing row (Py.lit "料金（基本）"))
      && negb (missing row (Py.lit "料金（詳細）"))
      && Py.truthy name && Py.truthy lat_str && Py.truthy lon_str
      && match py_float lat_str, py_float lon_str with
         | Some lat, Some lon =>
             negb (lat =? 0)%float && negb (lon =? 0)%float
         | _, _ => false
         end
  | _, _, _, _ => false
  end.

(** Whether the loop passes over [row]: it neither appends a record nor
    stops the script. *)
Definition skips (row : gmap str cell) : bool :=
  negb (emits row) && negb (aborts row).

End Notions.

(** The comparison function of a sort by an integer key, and the test for
    one value of the key. *)
Definition by_key {A : Type} (key : A -> Z) (a b : A) : Z := key a - key b.

Definition has_key {A : Type} (key : A -> Z) (c : Z) (a : A) : bool :=
  key a =? c.

(** A record with its congestion level put to 0: what is left of it when
    the drawn level is set aside. *)
Definition without_level (s : Spot.t) : Spot.t :=
  Spot.mk (Spot.id s) (Spot.name s) (Spot.description s) 0
    (Spot.location s) (Spot.openingHours s) (Spot.price s).

(** The event "the record at index [i] has congestion level [c]". *)
Definition level_is (i : nat) (c : Z) (st : state) : bool :=
  match nth_error (spots st) i with
  | Some s => Spot.congestionLevel s =? c
  | None => false
  end.

(** The value of a finite double as a real number. *)
Definition real_of (x : float) : option R :=
  match Prim2SF x with
  | S754_zero _ => Some 0%R
  | S754_finite sign m e =>
      Some ((if sign then -1 else 1) * IZR (Z.pos m) * powerRZ 2 e)%R
  | S754_infinity _ => None
  | S754_nan => None
  end.

(** The haversine great-circle distance in km between two points given in
    degrees, on a sphere of radius 6371 km, over the real numbers. *)
Definition haversine_km (lat1 lon1 lat2 lon2 : R) : R :=
  let rad x := (x * PI / 180)%R in
  let hav x := (Rtrigo_def.sin (x / 2) * Rtrigo_def.sin (x / 2))%R in
  let a :=
    (hav (rad (lat2 - lat1))
     + Rtrigo_def.cos (rad lat1) * Rtrigo_def.cos (rad lat2)
       * hav (rad (lon2 - lon1)))%R in
  (6371 * (2 * asin (R_sqrt.sqrt a)))%R.

(** "The haversine distance from the current location to the spot is at
    most the radius", read over the real numbers: the coordinates are
    finite, and the radius is infinite or a real number the distance does
    not exceed. *)
Definition haversine_within (currentLoc : Coordinates) (spot : Spot.t)
    (radiusKm : float) : Prop :=
  exists lat1 lon1 lat2 lon2,
    real_of (latitude currentLoc) = Some lat1
    /\ real_of (longitude currentLoc) = Some lon1
    /\ real_of (latitude (Spot.location spot)) = Some lat2
    /\ real_of (longitude (Spot.location spot)) = Some lon2
    /\ (radiusKm = infinity
        \/ exists r,
             real_of radiusKm = Some r
             /\ (haversine_km lat1 lon1 lat2 lon2 <= r)%R).

(* ================================================================== *)
(** ** Running the generator on concrete rows *)

(** A reader for plain decimal numerals, [[+-]digits[.digits]] with at
    most 15 digits, to run the generator on concrete rows.  Both the digits
    read as an integer and the power of ten are doubles, so their quotient
    is the nearest double of the numeral, the value Python's [float] gives.
    Python's [float] accepts more (exponents, [inf], [nan], underscores);
    only numerals of this shape and text without any digit are used
    below. *)
Module Numeral.

Definition digit (c : Py.char) : option Z :=
  if ((48 <=? c) && (c <=? 57))%N then Some (Z.of_N c - 48) else None.

(** Reads digits; [seen_dot] tells whether the point has been passed,
    [m] is the integer read so far, [frac] the number of digits after the
    point and [n] the number of digits in all. *)
Fixpoint digits (s : str) (seen_dot : bool) (m : Z) (frac n : nat)
    : option (Z * nat * nat) :=
  match s with
  | [] => Some (m, frac, n)
  | c :: s' =>
      match digit c with
      | Some d =>
          digits s' seen_dot (10 * m + d)
            (if seen_dot then S frac else frac) (S n)
      | None =>
          if (c =? 46)%N && negb seen_dot then digits s' true m frac n
          else None
      end
  end.

Definition unsigned (s : str) : option float :=
  match digits s false 0 0 0 with
  | Some (m, frac, n) =>
      if (0 <? n)%nat && (n <=? 15)%nat then
        Some (of_uint63 (Uint63.of_Z m)
              / of_uint63 (Uint63.of_Z (10 ^ Z.of_nat frac)))%float
      else None
  | None => None
  end.

Definition read (s : str) : option float :=
  match s with
  | 45%N :: s' =>
      match unsigned s' with Some f => Some (- f)%float | None => None end
  | 43%N :: s' => unsigned s'
  | _ => unsigned s
  end.

End Numeral.

(** Rows of a CSV file; a column a row does not list is a column the file
    does not have. *)
Definition row_of (cells : list (string * string)) : gmap str cell :=
  list_to_map (List.map (fun '(k, v) => (Py.lit k, Text (Py.lit v))) cells).

Definition row_kinkakuji : gmap str cell :=
  row_of [ ("名称", " 金閣寺 "); ("緯度", "35.0394"); ("経度", "135.7292");
           ("説明", ""); ("開始時間", "9:00"); ("終了時間", "17:00");
           ("利用可能日時特記事項", "年中無休");
           ("料金（基本）", "500円"); ("料金（詳細）", "") ]%string.

Definition row_hotel : gmap str cell :=
  row_of [ ("名称", "京都ホテル"); ("緯度", "35.01"); ("経度", "135.76") ]%string.

Definition row_badlat : gmap str cell :=
  row_of [ ("名称", "嵐山"); ("緯度", "不明"); ("経度", "135.67");
           ("説明", "渡月橋") ]%string.

Definition row_zero : gmap str cell :=
  row_of [ ("名称", "清水寺"); ("緯度", "0.0"); ("経度", "135.78") ]%string.

Definition row_arashiyama : gmap str cell :=
  row_of [ ("名称", "嵐山"); ("緯度", "35.0094"); ("経度", "135.6668");
           ("説明", "渡月橋"); ("利用可能日時特記事項", "散策自由");
           ("料金（詳細）", "無料") ]%string.

Definition sample_rows : list (gmap str cell) :=
  [row_kinkakuji; row_hotel; row_badlat; row_zero; row_arashiyama].

(** The end of the run in which [random.randint] answers 3, then 1. *)
Definition sample_final : state :=
  state_of
    (nth 10 (outcomes (generate Numeral.read sample_rows)) (Proceed initial)).

Definition sample_spot : Spot.t :=
  nth 0 (spots sample_final)
    (Spot.mk [] [] [] 0 {| latitude := 0; longitude := 0 |} None None).

(** Lines of a file with four columns.  The first has a blank name and no
    field for the description; the second has a latitude that is not a
    number and no field for the description; the third has the name
    only. *)
Definition short_header : list str :=
  [Py.lit "名称"; Py.lit "緯度"; Py.lit "経度"; Py.lit "説明"].

Definition row_short_blank : gmap str cell :=
  DictReader_row short_header [Py.lit " "; Py.lit "35.0"; Py.lit "135.7"].

Definition row_short_badlat : gmap str cell :=
  DictReader_row short_header [Py.lit "嵐山"; Py.lit "不明"; Py.lit "135.67"].

Definition row_short_name : gmap str cell :=
  DictReader_row short_header [Py.lit "金閣寺"].

(** One implementation of [Math.sin], [Math.cos] and [Math.atan2], to run
    [findNearbySpots] on concrete coordinates.  ECMAScript leaves the three
    functions to the implementation to approximate and fixes their results
    for arguments that are not finite.  These are Taylor polynomials: sine
    and cosine are accurate to the last few bits for arguments from -pi to
    pi, which covers latitudes from -90 to 90 and longitudes from -180 to
    180, and the arc tangent for every argument. *)
Module Approx.

(** [sum + t1 + t2 + ...], [n] terms, where the term after [term] is
    [- term * x2 / ((k + 1) * (k + 2))] and [k] goes up by 2. *)
Fixpoint series (n : nat) (term sum x2 k : float) : float :=
  match n with
  | O => sum
  | S n' =>
      let term' := (- term * x2 / ((k + 1) * (k + 2)))%float in
      series n' term' (sum + term')%float x2 (k + 2)%float
  end.

Definition sin (x : float) : float :=
  if is_finite x then series 16 x x (x * x)%float 1%float else nan.

Definition cos (x : float) : float :=
  if is_finite x then series 16 1%float 1%float (x * x)%float 0%float
  else nan.

(** [sum + p1 / (k + 2) + p2 / (k + 4) + ...], where the power after
    [power] is [- power * t2]. *)
Fixpoint atan_series (n : nat) (power sum t2 k : float) : float :=
  match n with
  | O => sum
  | S n' =>
      let power' := (- power * t2)%float in
      atan_series n' power' (sum + power' / (k + 2))%float t2 (k + 2)%float
  end.

Definition atan_small (t : float) : float :=
  atan_series 30 t t (t * t)%float 1%float.

(** The arc tangent of [t >= 0], reduced to an argument below
    [tan (pi / 8)]. *)
Definition atan_pos (t : float) : float :=
  if (t <=? 0x1.a827999fcef32p-2)%float then atan_small t
  else if (t <=? 0x1.3504f333f9de6p+1)%float then
    (Math_PI / 4 + atan_small ((t - 1) / (t + 1)))%float
  else (Math_PI / 2 - atan_small (1 / t))%float.

Definition atan (t : float) : float :=
  if (t <? 0)%float then (- atan_pos (- t))%float else atan_pos t.

Definition atan2 (y x : float) : float :=
  if is_nan y || is_nan x then nan
  else if (0 <? x)%float then atan (y / x)
  else if (x <? 0)%float then
    if (y <? 0)%float then (atan (y / x) - Math_PI)%float
    else (atan (y / x) + Math_PI)%float
  else if (0 <? y)%float then (Math_PI / 2)%float
  else if (y <? 0)%float then (- (Math_PI / 2))%float
  else 0%float.

End Approx.

(** A current location and a spot for which the difference of the
    latitudes is beyond the largest double. *)
Definition far_loc : Coordinates :=
  {| latitude := (- 0x1p+1023)%float; longitude := 135 |}.

Definition far_spot : Spot.t :=
  Spot.mk (Py.lit "spot-1") (Py.lit "遠い所") (Py.lit "遠い所の観光スポット") 3
    {| latitude := 0x1p+1023; longitude := 135 |} None None.

(* ================================================================== *)
(** ** Facts about programs *)

Lemma same_refl {A : Type} (m : rand A) : same m m.
Proof. induction m; constructor; auto. Qed.

Lemma same_sym {A : Type} (m m' : rand A) : same m m' -> same m' m.
Proof. induction 1; constructor; auto. Qed.

Lemma same_trans {A : Type} (m1 m2 m3 : rand A) :
  same m1 m2 -> same m2 m3 -> same m1 m3.
Proof.
  intros H; revert m3.
  induction H as [x | a b k k' Hk IH]; intros m3 H23.
  - exact H23.
  - inversion H23; subst. constructor. intros n. apply IH. auto.
Qed.

Lemma same_bind {A B : Type} (m m' : rand A) (f g : A -> rand B) :
  same m m' -> (forall x, same (f x) (g x)) -> same (bind m f) (bind m' g).
Proof.
  intros H Hfg. induction H as [x | a b k k' Hk IH]; simpl.
  - apply Hfg.
  - constructor. exact IH.
Qed.

Lemma bind_assoc {A B C : Type} (m : rand A) (f : A -> rand B)
    (g : B -> rand C) :
  same (bind (bind m f) g) (bind m (fun x => bind (f x) g)).
Proof.
  induction m as [x | a b k IH]; simpl.
  - apply same_refl.
  - constructor. exact IH.
Qed.

Lemma flat_map_pointwise {A B : Type} (f g : A -> list B) (l : list A) :
  (forall x, f x = g x) -> flat_map f l = flat_map g l.
Proof. intros H. induction l as [| x l IH]; simpl; congruence. Qed.

Lemma same_outcomes {A : Type} (m m' : rand A) :
  same m m' -> outcomes m = outcomes m'.
Proof.
  induction 1 as [x | a b k k' Hk IH]; simpl.
  - reflexivity.
  - apply flat_map_pointwise. exact IH.
Qed.

Lemma map_pointwise {A B : Type} (f g : A -> B) (l : list A) :
  (forall x, f x = g x) -> List.map f l = List.map g l.
Proof. intros H. induction l as [| x l IH]; simpl; congruence. Qed.

Lemma same_pr {A : Type} (m m' : rand A) (E : A -> bool) :
  same m m' -> pr m E = pr m' E.
Proof.
  induction 1 as [x | a b k k' Hk IH]; simpl.
  - reflexivity.
  - f_equal. f_equal. apply map_pointwise. exact IH.
Qed.

Lemma in_outcomes_bind {A B : Type} (m : rand A) (f : A -> rand B) (y : B) :
  In y (outcomes (bind m f)) <->
  exists x, In x (outcomes m) /\ In y (outcomes (f x)).
Proof.
  induction m as [x | a b k IH]; simpl.
  - split.
    + intros H. exists x. auto.
    + intros (x' & [-> | []] & H). exact H.
  - rewrite in_flat_map. split.
    + intros (n & Hn & Hy). apply IH in Hy. destruct Hy as (x & Hx & Hy).
      exists x. split; [| exact Hy]. apply in_flat_map. eauto.
    + intros (x & Hx & Hy). apply in_flat_map in Hx.
      destruct Hx as (n & Hn & Hx). exists n. split; [exact Hn |].
      apply IH. eauto.
Qed.

Lemma in_interval (a b n : Z) : In n (interval a b) <-> a <= n <= b.
Proof.
  unfold interval. rewrite in_map_iff. split.
  - intros (i & <- & Hi). apply in_seq in Hi. lia.
  - intros H. exists (Z.to_nat (n - a)). split; [lia |].
    apply in_seq. lia.
Qed.

(* ================================================================== *)
(** ** Facts about text *)

Lemma truthy_empty (s : str) : Py.truthy s = false <-> s = [].
Proof. destruct s; simpl; split; congruence. Qed.

Lemma truthy_nonempty (s : str) : Py.truthy s = true <-> s <> [].
Proof. destruct s; simpl; split; congruence. Qed.

Lemma truthy_slice_to (n : nat) (s : str) :
  Py.truthy (Py.slice_to (S n) s) = Py.truthy s.
Proof. destruct s; reflexivity. Qed.

Lemma truthy_app_l (s t : str) :
  Py.truthy s = true -> Py.truthy (s ++ t) = true.
Proof. destruct s; simpl; congruence. Qed.

(** Turns the tests on strings among the hypotheses into (in)equalities
    with the empty string. *)
Ltac truthy_hyps :=
  repeat match goal with
  | H : Py.truthy _ = true |- _ => apply truthy_nonempty in H
  | H : Py.truthy _ = false |- _ => apply truthy_empty in H
  end.

(* ================================================================== *)
(* ================================================================== *)
(** ** One row *)

Section GeneratorFacts.

Variable py_float : str -> option float.

(** A pass through the loop body leaves the variables alone, or draws one
    congestion level and appends one record, or stops the script with the
    variables as they were. *)
Lemma for_body_cases (st : state) (row : gmap str cell) :
  (emits py_float row = false /\ aborts row = false
   /\ for_body py_float st row = Ret (Proceed st))
  \/ (emits py_float row = true /\ aborts row = false
      /\ exists mk : Z -> Spot.t,
           for_body py_float st row
             = RandInt 1 5 (fun c => Ret (Proceed (append_spot st (mk c))))
           /\ forall c, built_from py_float row (spot_id st) c (mk c))
  \/ (emits py_float row = false /\ aborts row = true
      /\ for_body py_float st row = Ret (Uncaught AttributeError st)).
Proof.
  unfold for_body, try_suite, emits, aborts, built_from, stripped, missing,
    strip_then.
  destruct (get row (Py.lit "名称")) as [raw_name |];
    [| right; right; repeat split; reflexivity].
  destruct (get row (Py.lit "緯度")) as [raw_lat |];
    [| right; right; repeat split; reflexivity].
  destruct (get row (Py.lit "経度")) as [raw_lon |];
    [| right; right; repeat split; reflexivity].
  destruct (get row (Py.lit "説明")) as [raw_text |];
    [| right; right; repeat split; reflexivity].
  cbv beta iota zeta.
  destruct (Py.any _ exclude_keywords) eqn:Hex;
    [left; repeat split; reflexivity |].
  destruct (get row (Py.lit "開始時間")) as [raw_start |];
    [| right; right; repeat split; reflexivity].
  destruct (get row (Py.lit "終了時間")) as [raw_end |];
    [| right; right; repeat split; reflexivity].
  destruct (get row (Py.lit "利用可能日時特記事項")) as [raw_note |];
    [| right; right; repeat split; reflexivity].
  destruct (get row (Py.lit "料金（基本）")) as [raw_basic |];
    [| right; right; repeat split; reflexivity].
  destruct (get row (Py.lit "料金（詳細）")) as [raw_detail |];
    [| right; right; repeat split; reflexivity].
  cbv beta iota. cbn [negb andb orb].
  destruct (Py.truthy (Py.strip raw_name)) eqn:Hname;
    [| left; repeat split; reflexivity].
  destruct (Py.truthy (Py.strip raw_lat)) eqn:Hlat;
    [| left; repeat split; reflexivity].
  destruct (Py.truthy (Py.strip raw_lon)) eqn:Hlon;
    [| left; repeat split; reflexivity].
  cbn [negb andb orb].
  destruct (py_float (Py.strip raw_lat)) as [lat |] eqn:Flat;
    [| left; repeat split; reflexivity].
  destruct (py_float (Py.strip raw_lon)) as [lon |] eqn:Flon;
    [| left; repeat split; reflexivity].
  destruct (lat =? 0)%float eqn:Zlat; [left; repeat split; reflexivity |].
  destruct (lon =? 0)%float eqn:Zlon; [left; repeat split; reflexivity |].
  cbn [negb andb orb bind].
  right. left. split; [reflexivity |]. split; [reflexivity |].
  eexists. split; [reflexivity |].
  intros c.
  rewrite truthy_slice_to.
  apply truthy_nonempty in Hname.
  destruct (Py.truthy (Py.strip raw_detail)) eqn:Hpd;
  destruct (Py.truthy (Py.strip raw_basic)) eqn:Hpb;
  destruct (Py.truthy (Py.strip raw_note)) eqn:Hnote;
  destruct (Py.truthy (Py.strip raw_start)) eqn:Hs;
  destruct (Py.truthy (Py.strip raw_end)) eqn:He;
  cbn [andb];
  try rewrite (truthy_app_l _ _ Hs);
  try rewrite Hnote;
  cbn [Py.truthy Spot.set_openingHours Spot.set_price Spot.id Spot.name
       Spot.description Spot.congestionLevel Spot.location
       Spot.openingHours Spot.price latitude longitude];
  (split; [reflexivity |]); (split; [reflexivity |]);
  (split; [exact Hname |]); (split; [exact Hex |]);
  (split; [exists (Py.strip raw_text); split; reflexivity |]);
  (split; [reflexivity |]);
  (split; [exists (Py.strip raw_lat), (Py.strip raw_lon); auto 10 |]);
  (split;
   [exists (Py.strip raw_start), (Py.strip raw_end), (Py.strip raw_note);
    rewrite ?Hs, ?He, ?Hnote; auto 10 |]);
  exists (Py.strip raw_basic), (Py.strip raw_detail);
  rewrite ?Hpd, ?Hpb; auto 10.
Qed.

End GeneratorFacts.

(* ================================================================== *)
(** ** The whole loop *)

Section Runs.

Variable py_float : str -> option float.

Lemma in_outcomes_and_then (m : rand flow) (k : state -> rand flow)
    (f : flow) :
  In f (outcomes (and_then m k)) <->
  (exists st, In (Proceed st) (outcomes m) /\ In f (outcomes (k st)))
  \/ (exists e st, f = Uncaught e st /\ In (Uncaught e st) (outcomes m)).
Proof.
  unfold and_then. rewrite in_outcomes_bind. split.
  - intros ([st | e st] & Hm & Hf).
    + left. eauto.
    + right. destruct Hf as [<- | []]. eauto.
  - intros [(st & Hm & Hf) | (e & st & -> & Hm)].
    + exists (Proceed st). auto.
    + exists (Uncaught e st). split; [exact Hm | left; reflexivity].
Qed.

(** The record at index [i] of the list was appended by the pass over the
    row at index [i] among the rows that pass the tests, with the value the
    counter had then and a congestion level that [random.randint(1, 5)]
    can return; and the loop comes to its end only when no row stops the
    script. *)
Lemma for_rows_inv (rows : list (gmap str cell)) :
  forall st0 f,
    In f (outcomes (for_rows py_float rows st0)) ->
    (forall st, f = Proceed st -> processed rows = rows)
    /\ exists new,
         spots (state_of f) = spots st0 ++ new
         /\ spot_id (state_of f) = spot_id st0 + Z.of_nat (length new)
         /\ length new
            = length (List.filter (emits py_float) (processed rows))
         /\ forall i s,
              nth_error new i = Some s ->
              exists row c,
                nth_error (List.filter (emits py_float) (processed rows)) i
                = Some row
                /\ 1 <= c <= 5
                /\ built_from py_float row (spot_id st0 + Z.of_nat i) c s.
Proof.
  induction rows as [| row rest IH]; intros st0 f Hf.
  - simpl in Hf. destruct Hf as [<- | []]. split; [reflexivity |].
    exists []. rewrite app_nil_r. simpl. split; [reflexivity |].
    split; [lia |]. split; [reflexivity |]. intros [| i] s Hs; discriminate.
  - cbn [for_rows] in Hf. apply in_outcomes_and_then in Hf.
    cbn [processed List.filter].
    destruct (for_body_cases py_float st0 row)
      as [(He & Ha & Hskip) | [(He & Ha & mk & Hemit & Hmk)
                              | (He & Ha & Habort)]]; rewrite Ha.
    + rewrite Hskip in Hf.
      destruct Hf as [(st1 & [H1 | []] & Hf) | (e & st & _ & [H1 | []])];
        [| discriminate].
      injection H1 as <-. cbn [List.filter]. rewrite He.
      destruct (IH _ _ Hf) as (Hp & Hnew).
      split; [| exact Hnew]. intros st Hst. f_equal. exact (Hp st Hst).
    + rewrite Hemit in Hf. cbn [outcomes] in Hf.
      destruct Hf as [(st1 & H1 & Hf) | (e & st & _ & H1)];
        apply in_flat_map in H1; destruct H1 as (c & Hc & [H1 | []]);
        [| discriminate].
      injection H1 as <-. apply in_interval in Hc.
      cbn [List.filter]. rewrite He.
      destruct (IH _ _ Hf) as (Hp & new & Hsp & Hid & Hlen & Hnew).
      split; [intros st Hst; f_equal; exact (Hp st Hst) |].
      cbn [append_spot spots spot_id] in Hsp, Hid, Hnew.
      exists (mk c :: new). rewrite <- app_assoc in Hsp.
      split; [exact Hsp |]. split; [cbn [length]; lia |].
      split; [cbn [length]; lia |].
      intros [| i] s Hs.
      * injection Hs as <-. exists row, c. split; [reflexivity |].
        split; [exact Hc |]. rewrite Z.add_0_r. apply Hmk.
      * cbn [nth_error] in Hs |- *.
        destruct (Hnew i s Hs) as (r & c' & Hr & Hc' & Hb).
        exists r, c'. split; [exact Hr |]. split; [exact Hc' |].
        replace (spot_id st0 + Z.of_nat (S i))
          with (spot_id st0 + 1 + Z.of_nat i) by lia.
        exact Hb.
    + rewrite Habort in Hf.
      destruct Hf as [(st1 & [H1 | []] & Hf) | (e & st & -> & [H1 | []])];
        [discriminate |].
      injection H1 as <- <-. split; [discriminate |].
      exists []. cbn [state_of]. rewrite app_nil_r. simpl.
      split; [reflexivity |]. split; [lia |]. split; [reflexivity |].
      intros [| i] s Hs; discriminate.
Qed.

Lemma generate_inv (rows : list (gmap str cell)) (st : state) :
  In (Proceed st) (outcomes (generate py_float rows)) ->
  spot_id st = 1 + Z.of_nat (length (spots st))
  /\ length (spots st) = length (List.filter (emits py_float) rows)
  /\ forall i s,
       nth_error (spots st) i = Some s ->
       exists row c,
         nth_error (List.filter (emits py_float) rows) i = Some row
         /\ 1 <= c <= 5
         /\ built_from py_float row (1 + Z.of_nat i) c s.
Proof.
  intros H. apply for_rows_inv in H.
  destruct H as (Hp & new & Hsp & Hid & Hlen & Hnew).
  rewrite (Hp st eq_refl) in Hlen, Hnew.
  cbn [initial spots spot_id app state_of] in Hsp, Hid, Hnew. rewrite Hsp.
  split; [exact Hid |]. split; [exact Hlen | exact Hnew].
Qed.

Lemma generate_spot (rows : list (gmap str cell)) (st : state) (s : Spot.t) :
  In (Proceed st) (outcomes (generate py_float rows)) ->
  In s (spots st) ->
  exists row k c, In row rows /\ 1 <= c <= 5 /\ built_from py_float row k c s.
Proof.
  intros Hst Hs. apply generate_inv in Hst. destruct Hst as (_ & _ & H).
  apply In_nth_error in Hs. destruct Hs as [i Hi].
  destruct (H i s Hi) as (row & c & Hr & Hc & Hb).
  apply nth_error_In, filter_In in Hr. destruct Hr as [Hr _]. eauto 6.
Qed.

(** When no row stops the script the loop gets through all the rows and
    comes to its end. *)
Lemma processed_all (rows : list (gmap str cell)) :
  Forall (fun row => aborts row = false) rows -> processed rows = rows.
Proof.
  induction 1 as [| row rest Hrow _ IH]; cbn [processed].
  - reflexivity.
  - rewrite Hrow, IH. reflexivity.
Qed.

Lemma for_rows_proceeds (rows : list (gmap str cell)) :
  Forall (fun row => aborts row = false) rows ->
  forall st0 f,
    In f (outcomes (for_rows py_float rows st0)) -> exists st, f = Proceed st.
Proof.
  induction 1 as [| row rest Hrow _ IH]; intros st0 f Hf.
  - simpl in Hf. destruct Hf as [<- | []]. eauto.
  - cbn [for_rows] in Hf. apply in_outcomes_and_then in Hf.
    destruct Hf as [(st1 & _ & Hf) | (e & st & _ & H1)]; [eauto |].
    destruct (for_body_cases py_float st0 row)
      as [(_ & _ & Hskip) | [(_ & _ & mk & Hemit & _) | (_ & Ha & _)]].
    + rewrite Hskip in H1. destruct H1 as [H1 | []]. discriminate.
    + rewrite Hemit in H1. cbn [outcomes] in H1. apply in_flat_map in H1.
      destruct H1 as (c & _ & [H1 | []]). discriminate.
    + congruence.
Qed.

End Runs.

(* ================================================================== *)
(** ** Substrings *)

Lemma startswith_spec (s prefix : str) :
  Py.startswith s prefix = true <-> exists post, s = prefix ++ post.
Proof.
  revert s. induction prefix as [| p prefix IH]; intros s; simpl.
  - split; [intros _; exists s; reflexivity | reflexivity].
  - destruct s as [| c s].
    + split; [discriminate | intros [post H]; discriminate].
    + rewrite andb_true_iff, N.eqb_eq, IH. split.
      * intros [-> [post ->]]. exists post. reflexivity.
      * intros [post H]. injection H as -> ->. eauto.
Qed.

(** [sub in s] holds exactly when [sub] occurs in [s] as a substring. *)
Lemma contains_spec (sub s : str) :
  Py.contains sub s = true <-> exists pre post, s = pre ++ sub ++ post.
Proof.
  induction s as [| c s IH].
  - cbn [Py.contains]. rewrite orb_false_r, startswith_spec. split.
    + intros [post H]. exists [], post. exact H.
    + intros (pre & post & H). destruct pre; [eauto | discriminate].
  - cbn [Py.contains]. rewrite orb_true_iff, startswith_spec, IH. split.
    + intros [[post H] | (pre & post & H)].
      * exists [], post. exact H.
      * exists (c :: pre), post. rewrite H. reflexivity.
    + intros (pre & post & H). destruct pre as [| c' pre].
      * left. eauto.
      * right. injection H as -> ->. eauto.
Qed.

(* ================================================================== *)
(** ** Sorting by a key *)

Section SortByKey.

Context {A : Type}.
Variable key : A -> Z.

Lemma Array_insert_perm (cmp : A -> A -> Z) (a : A) (l : list A) :
  Permutation (Array_insert cmp a l) (a :: l).
Proof.
  induction l as [| b l IH]; simpl.
  - reflexivity.
  - destruct (0 <? cmp a b).
    + rewrite IH. apply perm_swap.
    + reflexivity.
Qed.

Lemma Array_sort_perm (cmp : A -> A -> Z) (l : list A) :
  Permutation (Array_sort cmp l) l.
Proof.
  induction l as [| a l IH]; simpl.
  - reflexivity.
  - rewrite Array_insert_perm. apply perm_skip. exact IH.
Qed.

Lemma Array_insert_sorted (a : A) (l : list A) :
  StronglySorted (fun x y => key x <= key y) l ->
  StronglySorted (fun x y => key x <= key y) (Array_insert (by_key key) a l).
Proof.
  induction 1 as [| b l Hl IH Hb]; simpl.
  - repeat constructor.
  - unfold by_key at 1. destruct (0 <? key a - key b) eqn:E.
    + apply Z.ltb_lt in E. constructor; [exact IH |].
      apply (Permutation_Forall (x := a :: l)).
      * symmetry. apply Array_insert_perm.
      * constructor; [lia | exact Hb].
    + apply Z.ltb_ge in E. constructor; [constructor; assumption |].
      constructor; [lia |].
      rewrite List.Forall_forall in Hb. apply List.Forall_forall.
      intros z Hz. specialize (Hb z Hz). lia.
Qed.

Lemma Array_sort_sorted (l : list A) :
  StronglySorted (fun x y => key x <= key y) (Array_sort (by_key key) l).
Proof.
  induction l as [| a l IH]; simpl.
  - constructor.
  - apply Array_insert_sorted. exact IH.
Qed.

Lemma Array_insert_stable (c : Z) (a : A) (l : list A) :
  List.filter (has_key key c) (Array_insert (by_key key) a l)
  = List.filter (has_key key c) (a :: l).
Proof.
  induction l as [| b l IH]; [reflexivity |].
  cbn [Array_insert]. unfold by_key at 1.
  destruct (0 <? key a - key b) eqn:E; [| reflexivity].
  apply Z.ltb_lt in E. cbn [List.filter] in *. rewrite IH.
  unfold has_key.
  destruct (key a =? c) eqn:Ea; [| reflexivity].
  apply Z.eqb_eq in Ea.
  destruct (key b =? c) eqn:Eb; [| reflexivity].
  apply Z.eqb_eq in Eb. lia.
Qed.

Lemma Array_sort_stable (c : Z) (l : list A) :
  List.filter (has_key key c) (Array_sort (by_key key) l) = List.filter (has_key key c) l.
Proof.
  induction l as [| a l IH]; [reflexivity |].
  cbn [Array_sort]. rewrite Array_insert_stable.
  cbn [List.filter]. rewrite IH. reflexivity.
Qed.

(** A list sorted by key is determined by its elements of each key, in
    their order. *)
Lemma sorted_by_key_unique (l1 l2 : list A) :
  StronglySorted (fun x y => key x <= key y) l1 ->
  StronglySorted (fun x y => key x <= key y) l2 ->
  (forall c, List.filter (has_key key c) l1 = List.filter (has_key key c) l2) ->
  l1 = l2.
Proof.
  intros H1. revert l2.
  induction H1 as [| x l1 Hl1 IH Hx]; intros l2 H2 Heq.
  - destruct l2 as [| y l2]; [reflexivity |].
    specialize (Heq (key y)). cbn in Heq. unfold has_key in Heq.
    rewrite Z.eqb_refl in Heq. discriminate.
  - destruct H2 as [| y l2 Hl2 Hy].
    + specialize (Heq (key x)). cbn in Heq. unfold has_key in Heq.
      rewrite Z.eqb_refl in Heq. discriminate.
    + assert (Hxy : key x = key y).
      { assert (Hle1 : key y <= key x).
        { assert (Hin : In x (List.filter (has_key key (key x)) (y :: l2))).
          { rewrite <- Heq. cbn. unfold has_key. rewrite Z.eqb_refl.
            left. reflexivity. }
          apply filter_In in Hin. destruct Hin as [[-> | Hin] _]; [lia |].
          rewrite List.Forall_forall in Hy. apply Hy. exact Hin. }
        assert (Hle2 : key x <= key y).
        { assert (Hin : In y (List.filter (has_key key (key y)) (x :: l1))).
          { rewrite Heq. cbn. unfold has_key. rewrite Z.eqb_refl.
            left. reflexivity. }
          apply filter_In in Hin. destruct Hin as [[-> | Hin] _]; [lia |].
          rewrite List.Forall_forall in Hx. apply Hx. exact Hin. }
        lia. }
      assert (Hhead := Heq (key x)). cbn in Hhead. unfold has_key in Hhead.
      rewrite Z.eqb_refl, <- Hxy, Z.eqb_refl in Hhead.
      injection Hhead as <- _. f_equal. apply IH; [exact Hl2 |].
      intros c. specialize (Heq c). cbn in Heq.
      destruct (has_key key c x); [injection Heq; auto | exact Heq].
Qed.

(** Any stable sort by key gives the list [Array_sort] gives. *)
Lemma Array_sort_unique (l sorted : list A) :
  StronglySorted (fun x y => key x <= key y) sorted ->
  (forall c, List.filter (has_key key c) sorted = List.filter (has_key key c) l) ->
  sorted = Array_sort (by_key key) l.
Proof.
  intros Hs Hst. apply sorted_by_key_unique.
  - exact Hs.
  - apply Array_sort_sorted.
  - intros c. rewrite Hst, Array_sort_stable. reflexivity.
Qed.

End SortByKey.

(* ================================================================== *)
(** ** The distribution of the congestion levels *)

Lemma Qsum_pointwise (f g : Z -> Q) (l : list Z) :
  (forall n, In n l -> (f n == g n)%Q) ->
  (Qsum (List.map f l) == Qsum (List.map g l))%Q.
Proof.
  induction l as [| n l IH]; intros H; simpl.
  - reflexivity.
  - rewrite (H n (or_introl eq_refl)), IH; [reflexivity |].
    intros m Hm. apply H. right. exact Hm.
Qed.

Lemma level_is_append (i : nat) (c : Z) (st : state) (s : Spot.t) :
  (i < length (spots st))%nat ->
  level_is i c (append_spot st s) = level_is i c st.
Proof.
  intros H. unfold level_is, append_spot. cbn [spots].
  rewrite nth_error_app1 by exact H. reflexivity.
Qed.

Lemma level_is_last (c : Z) (st : state) (s : Spot.t) :
  level_is (length (spots st)) c (append_spot st s)
  = (Spot.congestionLevel s =? c).
Proof.
  unfold level_is, append_spot. cbn [spots].
  rewrite nth_error_app2 by lia. rewrite Nat.sub_diag. reflexivity.
Qed.

Section Levels.

Variable py_float : str -> option float.

(** Once a record is in the list, later rows do not change it. *)
Lemma pr_level_settled (rows : list (gmap str cell)) :
  forall (st : state) (i : nat) (c : Z),
    (i < length (spots st))%nat ->
    (pr (for_rows py_float rows st) (fun f => level_is i c (state_of f))
     == if level_is i c st then 1 else 0)%Q.
Proof.
  induction rows as [| row rest IH]; intros st i c Hi.
  - simpl. reflexivity.
  - cbn [for_rows]. unfold and_then.
    destruct (for_body_cases py_float st row)
      as [(_ & _ & Hskip) | [(_ & _ & mk & Hemit & _) | (_ & _ & Habort)]].
    + rewrite Hskip. cbn [bind]. apply IH. exact Hi.
    + rewrite Hemit. cbn [bind pr].
      rewrite (Qsum_pointwise _
                 (fun _ => if level_is i c st then 1%Q else 0%Q)).
      * vm_compute interval. cbn [List.map Qsum fold_right].
        destruct (level_is i c st); reflexivity.
      * intros n _. rewrite IH.
        -- rewrite level_is_append by exact Hi. reflexivity.
        -- unfold append_spot. cbn [spots]. rewrite length_app. simpl. lia.
    + rewrite Habort. cbn [bind pr state_of]. reflexivity.
Qed.

(** The record a kept row appends gets each of the five levels with
    probability one fifth, whatever the rows are. *)
Lemma pr_level_uniform (rows : list (gmap str cell)) :
  forall (st : state) (i : nat) (c : Z),
    1 <= c <= 5 ->
    (length (spots st) <= i)%nat ->
    (i < length (spots st)
         + length (List.filter (emits py_float) (processed rows)))%nat ->
    (pr (for_rows py_float rows st) (fun f => level_is i c (state_of f))
     == 1 # 5)%Q.
Proof.
  induction rows as [| row rest IH]; intros st i c Hc Hlo Hhi.
  - simpl in Hhi. lia.
  - cbn [for_rows processed] in *. unfold and_then.
    destruct (for_body_cases py_float st row)
      as [(He & Ha & Hskip) | [(He & Ha & mk & Hemit & Hmk)
                              | (He & Ha & Habort)]];
      rewrite Ha in Hhi; cbn [List.filter] in Hhi; try rewrite He in Hhi.
    + rewrite Hskip. cbn [bind]. apply IH; assumption.
    + rewrite Hemit. cbn [bind pr]. cbn [length] in Hhi.
      destruct (Nat.eq_dec i (length (spots st))) as [-> | Hne].
      * rewrite (Qsum_pointwise _ (fun n => if n =? c then 1%Q else 0%Q)).
        -- vm_compute interval. cbn [List.map Qsum fold_right].
           assert (Hcases : c = 1 \/ c = 2 \/ c = 3 \/ c = 4 \/ c = 5) by lia.
           destruct Hcases as [-> | [-> | [-> | [-> | ->]]]]; reflexivity.
        -- intros n _. rewrite pr_level_settled.
           ++ rewrite level_is_last.
              destruct (Hmk n) as (_ & _ & _ & _ & _ & -> & _). reflexivity.
           ++ unfold append_spot. cbn [spots]. rewrite length_app. simpl. lia.
      * rewrite (Qsum_pointwise _ (fun _ => (1 # 5)%Q)).
        -- vm_compute interval. reflexivity.
        -- intros n _. apply IH; [exact Hc | |];
             unfold append_spot; cbn [spots]; rewrite length_app; simpl; lia.
    + cbn [length] in Hhi. lia.
Qed.

End Levels.

(* ================================================================== *)
(** ** More about the loop *)

Lemma same_and_then (m m' : rand flow) (k k' : state -> rand flow) :
  same m m' -> (forall st, same (k st) (k' st)) ->
  same (and_then m k) (and_then m' k').
Proof.
  intros Hm Hk. unfold and_then. apply same_bind; [exact Hm |].
  intros [st | e st]; [apply Hk | apply same_refl].
Qed.

Lemma and_then_assoc (m : rand flow) (k k' : state -> rand flow) :
  same (and_then (and_then m k) k')
       (and_then m (fun st => and_then (k st) k')).
Proof.
  unfold and_then. eapply same_trans; [apply bind_assoc |].
  apply same_bind; [apply same_refl |].
  intros [st | e st]; apply same_refl.
Qed.

Section RunsMore.

Variable py_float : str -> option float.

(** The loop over a list of rows in two parts. *)
Lemma for_rows_app (before after : list (gmap str cell)) :
  forall st,
    same (for_rows py_float (before ++ after) st)
         (and_then (for_rows py_float before st) (for_rows py_float after)).
Proof.
  induction before as [| row before IH]; intros st.
  - apply same_refl.
  - cbn [app for_rows].
    eapply same_trans; [| apply same_sym, and_then_assoc].
    apply same_and_then; [apply same_refl | exact IH].
Qed.

(** A row on which the body returns at once can be taken out of the file. *)
Lemma for_rows_skip (before after : list (gmap str cell))
    (row : gmap str cell) :
  (forall st, for_body py_float st row = Ret (Proceed st)) ->
  forall st,
    same (for_rows py_float (before ++ row :: after) st)
         (for_rows py_float (before ++ after) st).
Proof.
  intros Hskip st.
  eapply same_trans; [apply for_rows_app |].
  eapply same_trans; [| apply same_sym, for_rows_app].
  apply same_and_then; [apply same_refl |].
  intros st'. cbn [for_rows]. rewrite Hskip. apply same_refl.
Qed.

(** A row that neither appends a record nor stops the script is passed
    over in every state. *)
Lemma for_body_skip (row : gmap str cell) :
  skips py_float row = true ->
  forall st, for_body py_float st row = Ret (Proceed st).
Proof.
  unfold skips. intros Hs st. apply andb_true_iff in Hs.
  destruct Hs as [He Ha]. apply negb_true_iff in He, Ha.
  destruct (for_body_cases py_float st row)
    as [(_ & _ & H) | [(He' & _) | (_ & Ha' & _)]];
    [exact H | congruence | congruence].
Qed.

End RunsMore.

(* ================================================================== *)
(** ** The run on the five rows *)

Lemma sample_final_outcome :
  In (Proceed sample_final) (outcomes (generate Numeral.read sample_rows)).
Proof.
  replace (Proceed sample_final)
    with (nth 10 (outcomes (generate Numeral.read sample_rows))
            (Proceed initial))
    by (vm_compute; reflexivity).
  apply nth_In. vm_compute. lia.
Qed.

Lemma sample_spot_in : In sample_spot (spots sample_final).
Proof. apply nth_In. vm_compute. lia. Qed.

Lemma sample_spot_nth : nth_error (spots sample_final) 0 = Some sample_spot.
Proof. vm_compute. reflexivity. Qed.

Example sample_outcomes :
  length (outcomes (generate Numeral.read sample_rows)) = 25%nat.
Proof. vm_compute. reflexivity. Qed.

Example sample_final_value :
  sample_final =
  {| spots :=
       [ Spot.mk (Py.lit "spot-1") (Py.lit "金閣寺")
           (Py.lit "金閣寺の観光スポット") 3
           {| latitude := 35.0394; longitude := 135.7292 |}
           (Some (Py.lit "9:00～17:00")) (Some (Py.lit "500円"));
         Spot.mk (Py.lit "spot-2") (Py.lit "嵐山") (Py.lit "渡月橋") 1
           {| latitude := 35.0094; longitude := 135.6668 |}
           (Some (Py.lit "散策自由")) (Some (Py.lit "無料")) ];
     spot_id := 3 |}.
Proof. vm_compute. reflexivity. Qed.

Example strip_example :
  Py.strip (Py.lit "  　金閣寺 　 ") = Py.lit "金閣寺".
Proof. vm_compute. reflexivity. Qed.

Example contains_example :
  Py.contains (Py.lit "イン") (Py.lit "ワインの店") = true
  /\ Py.contains (Py.lit "宿") (Py.lit "金閣寺") = false.
Proof. split; vm_compute; reflexivity. Qed.

Example slice_to_example :
  length (Py.slice_to 150 (repeat 12354%N 200)) = 150%nat
  /\ Py.slice_to 150 (Py.lit "渡月橋") = Py.lit "渡月橋".
Proof. split; vm_compute; reflexivity. Qed.

Example interval_example : interval 1 5 = [1; 2; 3; 4; 5].
Proof. reflexivity. Qed.

Example str_of_int_example :
  Py.lit "spot-" ++ Py.str_of_int 120 = Py.lit "spot-120".
Proof. vm_compute. reflexivity. Qed.

Example for_body_examples :
  for_body Numeral.read initial row_hotel = Ret (Proceed initial)
  /\ for_body Numeral.read initial row_badlat = Ret (Proceed initial)
  /\ for_body Numeral.read initial row_zero = Ret (Proceed initial)
  /\ List.map (emits Numeral.read) sample_rows
     = [true; false; false; false; true]
  /\ List.map aborts sample_rows = [false; false; false; false; false].
Proof. repeat split; vm_compute; reflexivity. Qed.

(** The rows [csv.DictReader] builds for lines shorter than the header,
    and what the loop body does on them. *)
Example DictReader_row_example :
  row_short_badlat !! Py.lit "緯度" = Some (Text (Py.lit "不明"))
  /\ row_short_badlat !! Py.lit "説明" = Some PyNone
  /\ row_short_badlat !! Py.lit "開始時間" = None
  /\ get row_short_badlat (Py.lit "開始時間") = Text [].
Proof. repeat split; vm_compute; reflexivity. Qed.

Example short_line_examples :
  for_body Numeral.read initial row_short_blank
  = Ret (Uncaught AttributeError initial)
  /\ for_body Numeral.read initial row_short_name
     = Ret (Uncaught AttributeError initial)
  /\ List.map aborts [row_short_blank; row_short_badlat; row_short_name]
     = [true; true; true].
Proof. repeat split; vm_compute; reflexivity. Qed.

(** Equal keys keep their order. *)
Example Array_sort_example :
  Array_sort (fun a b => fst a - fst b)
    [(3, "a"); (1, "b"); (3, "c"); (1, "d"); (2, "e")]%string
  = [(1, "b"); (1, "d"); (2, "e"); (3, "a"); (3, "c")]%string.
Proof. reflexivity. Qed.

(* ================================================================== *)
(** ** The properties of the specification *)

Lemma leb_nan_l (x : float) : (nan <=? x)%float = false.
Proof.
  rewrite FloatAxioms.leb_spec. change (Prim2SF nan) with S754_nan.
  reflexivity.
Qed.

Lemma add_nan_l (x : float) : (nan + x)%float = nan.
Proof.
  apply Prim2SF_inj. rewrite FloatAxioms.add_spec. change (Prim2SF nan) with S754_nan.
  reflexivity.
Qed.

(** The result of [findNearbySpots] for a given radius. *)
Lemma findNearbySpots_near
    (Math_sin Math_cos : float -> float) (Math_atan2 : float -> float -> float)
    (KYOTO_SPOTS : list Spot.t) (currentLoc : Coordinates) (radiusKm : float) :
  let dist spot :=
    getDistanceFromLatLonInKm Math_sin Math_cos Math_atan2
      (latitude currentLoc) (longitude currentLoc)
      (latitude (Spot.location spot)) (longitude (Spot.location spot)) in
  let within spot := (dist spot <=? radiusKm)%float in
  let result :=
    findNearbySpots Math_sin Math_cos Math_atan2 KYOTO_SPOTS currentLoc
      (Some radiusKm) in
  Permutation result (List.filter within KYOTO_SPOTS)
  /\ (forall spot, In spot result <-> In spot KYOTO_SPOTS /\ within spot = true)
  /\ StronglySorted
       (fun a b => Spot.congestionLevel a <= Spot.congestionLevel b) result
  /\ (forall c,
        List.filter (has_key Spot.congestionLevel c) result
        = List.filter (has_key Spot.congestionLevel c)
            (List.filter within KYOTO_SPOTS)).
Proof.
  intros dist within result.
  assert (Hperm : Permutation result (List.filter within KYOTO_SPOTS))
    by apply Array_sort_perm.
  split; [exact Hperm |].
  split.
  { intros spot. rewrite <- (filter_In within). split; apply Permutation_in.
    - exact Hperm.
    - symmetry. exact Hperm. }
  split; [apply (Array_sort_sorted Spot.congestionLevel) |].
  intros c. apply (Array_sort_stable Spot.congestionLevel).
Qed.

(** With a difference of latitudes beyond the largest double, the distance
    the module computes is not a number, for every implementation of the
    [Math] functions that answers NaN where ECMAScript says so. *)
Lemma far_distance_nan
    (Math_sin Math_cos : float -> float)
    (Math_atan2 : float -> float -> float) :
  Math_sin infinity = nan ->
  (forall x, Math_atan2 nan x = nan) ->
  getDistanceFromLatLonInKm Math_sin Math_cos Math_atan2
    (latitude far_loc) (longitude far_loc)
    (latitude (Spot.location far_spot)) (longitude (Spot.location far_spot))
  = nan.
Proof.
  intros Hsin Hatan. unfold getDistanceFromLatLonInKm. cbv zeta.
  change (deg2rad (latitude (Spot.location far_spot) - latitude far_loc)
          / 2)%float with infinity.
  rewrite Hsin. change (nan * nan)%float with nan.
  rewrite add_nan_l. change (PrimFloat.sqrt nan) with nan.
  rewrite Hatan. reflexivity.
Qed.

(** C1, as the specification words it, fails: a spot whose haversine
    distance from the current location is within the radius is not
    returned.  The latitudes are so far apart that their difference is
    infinite in double precision; [Math.sin] of an infinite argument is
    NaN, the computed distance is NaN, and [NaN <= Infinity] is false. *)
Lemma findNearbySpots_misses_spot_within_radius :
  exists (KYOTO_SPOTS : list Spot.t) (currentLoc : Coordinates)
         (radiusKm : float) (spot : Spot.t),
    In spot KYOTO_SPOTS
    /\ haversine_within currentLoc spot radiusKm
    /\ forall (Math_sin Math_cos : float -> float)
              (Math_atan2 : float -> float -> float),
         Math_sin infinity = nan ->
         (forall x, Math_atan2 nan x = nan) ->
         ~ In spot
             (findNearbySpots Math_sin Math_cos Math_atan2 KYOTO_SPOTS
                currentLoc (Some radiusKm)).
Proof.
  exists [far_spot], far_loc, infinity, far_spot.
  split; [left; reflexivity |]. split.
  - unfold haversine_within, real_of.
    repeat match goal with
    | |- context [Prim2SF ?x] =>
        let v := eval vm_compute in (Prim2SF x) in
        change (Prim2SF x) with v
    end.
    do 4 eexists. repeat split; try reflexivity. left. reflexivity.
  - intros Math_sin Math_cos Math_atan2 Hsin Hatan Hin.
    unfold findNearbySpots in Hin. cbn [default List.filter] in Hin.
    rewrite (far_distance_nan Math_sin Math_cos Math_atan2 Hsin Hatan) in Hin.
    change (nan <=? infinity)%float with false in Hin.
    destruct Hin.
Qed.

(** C1, amended.  [findNearbySpots] returns exactly the spots of
    [KYOTO_SPOTS] for which the distance that [getDistanceFromLatLonInKm]
    computes in double precision compares [<=] to the radius: the result
    is a rearrangement of the filtered list, and a spot whose computed
    distance is NaN is never in it.  The computed distance is the haversine
    formula in doubles, with degrees turned to radians by the factor
    [Math.PI / 180] and with R = 6371.  The result is sorted by ascending
    [congestionLevel], the spots of each level come in the order they have
    in the filtered list, and no other list has these properties. *)
Theorem findNearbySpots_spec
    (Math_sin Math_cos : float -> float) (Math_atan2 : float -> float -> float)
    (KYOTO_SPOTS : list Spot.t) (currentLoc : Coordinates) (radiusKm : float) :
  let dist spot :=
    getDistanceFromLatLonInKm Math_sin Math_cos Math_atan2
      (latitude currentLoc) (longitude currentLoc)
      (latitude (Spot.location spot)) (longitude (Spot.location spot)) in
  let within spot := (dist spot <=? radiusKm)%float in
  let result :=
    findNearbySpots Math_sin Math_cos Math_atan2 KYOTO_SPOTS currentLoc
      (Some radiusKm) in
  let of_level c spot := Spot.congestionLevel spot =? c in
  Permutation result (List.filter within KYOTO_SPOTS)
  /\ (forall spot, In spot result <-> In spot KYOTO_SPOTS /\ within spot = true)
  /\ (forall spot, dist spot = nan -> ~ In spot result)
  /\ StronglySorted
       (fun a b => Spot.congestionLevel a <= Spot.congestionLevel b) result
  /\ (forall c,
        List.filter (of_level c) result
        = List.filter (of_level c) (List.filter within KYOTO_SPOTS))
  /\ (forall other,
        StronglySorted
          (fun a b => Spot.congestionLevel a <= Spot.congestionLevel b) other ->
        (forall c,
           List.filter (of_level c) other
           = List.filter (of_level c) (List.filter within KYOTO_SPOTS)) ->
        other = result)
  /\ (forall lat1 lon1 lat2 lon2,
        let rad x := (x * (0x1.921fb54442d18p+1 / 180))%float in
        let dLat := rad (lat2 - lat1)%float in
        let dLon := rad (lon2 - lon1)%float in
        let a :=
          (Math_sin (dLat / 2) * Math_sin (dLat / 2) +
           Math_cos (rad lat1) * Math_cos (rad lat2) *
           Math_sin (dLon / 2) * Math_sin (dLon / 2))%float in
        getDistanceFromLatLonInKm Math_sin Math_cos Math_atan2
          lat1 lon1 lat2 lon2
        = (6371 * (2 * Math_atan2 (PrimFloat.sqrt a)
                                  (PrimFloat.sqrt (1 - a))))%float).
Proof.
  intros dist within result of_level.
  destruct (findNearbySpots_near Math_sin Math_cos Math_atan2 KYOTO_SPOTS
              currentLoc radiusKm) as (Hperm & Hin & Hsorted & Hstable).
  split; [exact Hperm |]. split; [exact Hin |].
  split.
  { intros spot Hnan Hspot. apply Hin in Hspot. destruct Hspot as [_ Hw].
    fold (dist spot) in Hw. rewrite Hnan, leb_nan_l in Hw. discriminate. }
  split; [exact Hsorted |].
  split; [exact Hstable |]. split; [| reflexivity].
  intros other Hother Hlevels.
  apply (Array_sort_unique Spot.congestionLevel).
  - exact Hother.
  - exact Hlevels.
Qed.

(** From the first record of the run, the second is 6.59 km away: it is
    not in the result for the radius 5 and it is, and comes first, in the
    result for the radius 10. *)
Lemma findNearbySpots_spec_witness :
  let here := Spot.location sample_spot in
  let near5 :=
    findNearbySpots Approx.sin Approx.cos Approx.atan2
      (spots sample_final) here (Some 5%float) in
  let near10 :=
    findNearbySpots Approx.sin Approx.cos Approx.atan2
      (spots sample_final) here (Some 10%float) in
  let other := [nth 1 (spots sample_final) sample_spot; sample_spot] in
  getDistanceFromLatLonInKm Approx.sin Approx.cos Approx.atan2
    35.0394 135.7292 35.0094 135.6668 = 6.5888914843021045%float
  /\ near5 = [sample_spot]
  /\ StronglySorted
       (fun a b => Spot.congestionLevel a <= Spot.congestionLevel b) other
  /\ other = near10
  /\ List.map Spot.congestionLevel near10 = [1; 3].
Proof.
  intros here near5 near10 other.
  assert (Hsorted :
    StronglySorted
      (fun a b => Spot.congestionLevel a <= Spot.congestionLevel b) other).
  { repeat constructor. vm_compute. discriminate. }
  destruct (findNearbySpots_spec Approx.sin Approx.cos Approx.atan2
              (spots sample_final) here 10%float)
    as (_ & _ & _ & _ & _ & Hunique & _).
  assert (Hother : other = near10).
  { apply Hunique; [exact Hsorted |].
    intros c. vm_compute.
    destruct c as [| [[| | ] | [| | ] | ] |]; reflexivity. }
  split; [vm_compute; reflexivity |].
  split; [vm_compute; reflexivity |].
  split; [exact Hsorted |]. split; [exact Hother |].
  rewrite <- Hother. vm_compute. reflexivity.
Defined.

(** C2.  A row whose stripped name contains one of the 14 keywords of the
    exclusion list as a substring produces no record and leaves the
    identifier counter as it was: the pass over it ends with both variables
    unchanged, without a call of [random.randint].  When the cells read
    before the keyword test are text the loop goes on with the next row;
    when one of them is [None] the script has stopped before the test. *)
Theorem excluded_row_dropped
    (py_float : str -> option float) (st : state) (row : gmap str cell)
    (keyword pre post : str) :
  In keyword exclude_keywords ->
  stripped row (Py.lit "名称") = Some (pre ++ keyword ++ post) ->
  length exclude_keywords = 14%nat
  /\ (for_body py_float st row = Ret (Proceed st)
      \/ for_body py_float st row = Ret (Uncaught AttributeError st))
  /\ (missing row (Py.lit "緯度") = false ->
      missing row (Py.lit "経度") = false ->
      missing row (Py.lit "説明") = false ->
      for_body py_float st row = Ret (Proceed st))
  /\ (forall f, In f (outcomes (for_body py_float st row)) ->
        spots (state_of f) = spots st /\ spot_id (state_of f) = spot_id st).
Proof.
  intros Hk Hname.
  assert (Hany :
    Py.any (fun kw => Py.contains kw (pre ++ keyword ++ post))
      exclude_keywords = true).
  { unfold Py.any. apply existsb_exists. exists keyword.
    split; [exact Hk |]. apply contains_spec. eauto. }
  assert (Hfull :
    missing row (Py.lit "緯度") = false ->
    missing row (Py.lit "経度") = false ->
    missing row (Py.lit "説明") = false ->
    for_body py_float st row = Ret (Proceed st)).
  { unfold for_body, try_suite, strip_then, missing, stripped in *.
    destruct (get row (Py.lit "名称")) as [raw_name |]; [| discriminate].
    injection Hname as Hname. rewrite Hname.
    destruct (get row (Py.lit "緯度")); [| discriminate].
    destruct (get row (Py.lit "経度")); [| discriminate].
    destruct (get row (Py.lit "説明")); [| discriminate].
    intros _ _ _. cbv beta iota zeta. rewrite Hany. reflexivity. }
  assert (Hbody :
    for_body py_float st row = Ret (Proceed st)
    \/ for_body py_float st row = Ret (Uncaught AttributeError st)).
  { destruct (missing row (Py.lit "緯度")) eqn:M1;
    destruct (missing row (Py.lit "経度")) eqn:M2;
    destruct (missing row (Py.lit "説明")) eqn:M3;
    try (left; apply Hfull; reflexivity);
    right; clear Hfull;
    unfold for_body, try_suite, strip_then, missing, stripped in *;
    (destruct (get row (Py.lit "名称")); [| discriminate]);
    destruct (get row (Py.lit "緯度")); try discriminate;
    destruct (get row (Py.lit "経度")); try discriminate;
    destruct (get row (Py.lit "説明")); try discriminate;
    reflexivity. }
  split; [reflexivity |]. split; [exact Hbody |]. split; [exact Hfull |].
  intros f H. destruct Hbody as [Hb | Hb]; rewrite Hb in H;
    destruct H as [<- | []]; auto.
Qed.

Lemma excluded_row_dropped_witness :
  In (Py.lit "ホテル") exclude_keywords
  /\ stripped row_hotel (Py.lit "名称")
     = Some (Py.lit "京都" ++ Py.lit "ホテル" ++ [])
  /\ for_body Numeral.read initial row_hotel = Ret (Proceed initial).
Proof.
  assert (H1 : In (Py.lit "ホテル") exclude_keywords).
  { right. right. right. left. reflexivity. }
  assert (H2 : stripped row_hotel (Py.lit "名称")
               = Some (Py.lit "京都" ++ Py.lit "ホテル" ++ [])).
  { vm_compute. reflexivity. }
  split; [exact H1 |]. split; [exact H2 |].
  destruct (excluded_row_dropped Numeral.read initial row_hotel _ _ _ H1 H2)
    as (_ & _ & Hfull & _).
  apply Hfull; vm_compute; reflexivity.
Defined.

(** C3, at a line the specification says is dropped.  The line has a
    blank name and, being shorter than the header, no field for the
    description.  The stripped name is empty; the script does not drop the
    row: [strip] on the [None] of the description raises
    [AttributeError], the handler does not catch it, and the script stops
    without reaching the rows that follow. *)
Theorem blank_name_short_line_stops_script
    (py_float : str -> option float) (st : state)
    (rest : list (gmap str cell)) :
  stripped row_short_blank (Py.lit "名称") = Some []
  /\ get row_short_blank (Py.lit "説明") = PyNone
  /\ for_body py_float st row_short_blank = Ret (Uncaught AttributeError st)
  /\ for_rows py_float (row_short_blank :: rest) st
     = Ret (Uncaught AttributeError st)
  /\ for_body py_float st row_short_blank <> Ret (Proceed st).
Proof.
  assert (Hbody :
    for_body py_float st row_short_blank = Ret (Uncaught AttributeError st)).
  { destruct (for_body_cases py_float st row_short_blank)
      as [(_ & Ha & _) | [(_ & Ha & _) | (_ & _ & H)]];
      [vm_compute in Ha; discriminate | vm_compute in Ha; discriminate
      | exact H]. }
  split; [vm_compute; reflexivity |]. split; [vm_compute; reflexivity |].
  split; [exact Hbody |]. split.
  - cbn [for_rows]. unfold and_then. rewrite Hbody. reflexivity.
  - rewrite Hbody. discriminate.
Qed.

(** C4.  The description of every record of the output is the first 150
    characters of the stripped description cell of its row when that text
    is not empty, and the record's name followed by the fixed suffix
    otherwise.  The row of the record at index [i] is the row at index [i]
    among the rows that pass the tests. *)
Theorem description_field
    (py_float : str -> option float) (rows : list (gmap str cell))
    (st : state) (i : nat) (s : Spot.t) :
  In (Proceed st) (outcomes (generate py_float rows)) ->
  nth_error (spots st) i = Some s ->
  exists row text,
    nth_error (List.filter (emits py_float) rows) i = Some row
    /\ stripped row (Py.lit "名称") = Some (Spot.name s)
    /\ stripped row (Py.lit "説明") = Some text
    /\ (text <> [] -> Spot.description s = firstn 150 text)
    /\ (text = [] ->
        Spot.description s = Spot.name s ++ Py.lit "の観光スポット").
Proof.
  intros Hst Hs.
  destruct (generate_inv py_float rows st Hst) as (_ & _ & Hnth).
  destruct (Hnth i s Hs) as (row & c & Hrow & _ & Hb).
  destruct Hb as (_ & Hn & _ & _ & (text & Ht & Hd) & _).
  exists row, text. split; [exact Hrow |]. split; [exact Hn |].
  split; [exact Ht |]. rewrite Hd. split; intros H.
  - apply truthy_nonempty in H. rewrite H. reflexivity.
  - rewrite H. reflexivity.
Qed.

Lemma description_field_witness :
  In (Proceed sample_final) (outcomes (generate Numeral.read sample_rows))
  /\ nth_error (spots sample_final) 0 = Some sample_spot
  /\ exists row text,
       nth_error (List.filter (emits Numeral.read) sample_rows) 0 = Some row
       /\ stripped row (Py.lit "名称") = Some (Spot.name sample_spot)
       /\ stripped row (Py.lit "説明") = Some text
       /\ (text <> [] -> Spot.description sample_spot = firstn 150 text)
       /\ (text = [] ->
           Spot.description sample_spot
           = Spot.name sample_spot ++ Py.lit "の観光スポット").
Proof.
  split; [exact sample_final_outcome |]. split; [exact sample_spot_nth |].
  exact (description_field Numeral.read sample_rows sample_final 0%nat
           sample_spot sample_final_outcome sample_spot_nth).
Defined.

(** C5.  The opening hours of every record of the output come from its
    row (the row at the record's index among the rows that pass the
    tests), start and end time before the note: when the stripped start
    time and end time are both non-empty the text is start, a wave dash,
    end; otherwise it is the stripped note when that is non-empty;
    otherwise the record has no [openingHours] key. *)
Theorem openingHours_field
    (py_float : str -> option float) (rows : list (gmap str cell))
    (st : state) (i : nat) (s : Spot.t) :
  In (Proceed st) (outcomes (generate py_float rows)) ->
  nth_error (spots st) i = Some s ->
  exists row start_time end_time time_note,
    nth_error (List.filter (emits py_float) rows) i = Some row
    /\ stripped row (Py.lit "名称") = Some (Spot.name s)
    /\ stripped row (Py.lit "開始時間") = Some start_time
    /\ stripped row (Py.lit "終了時間") = Some end_time
    /\ stripped row (Py.lit "利用可能日時特記事項") = Some time_note
    /\ (start_time <> [] /\ end_time <> [] ->
        Spot.openingHours s = Some (start_time ++ Py.lit "～" ++ end_time))
    /\ (~ (start_time <> [] /\ end_time <> []) -> time_note <> [] ->
        Spot.openingHours s = Some time_note)
    /\ (~ (start_time <> [] /\ end_time <> []) -> time_note = [] ->
        Spot.openingHours s = None).
Proof.
  intros Hst Hs.
  destruct (generate_inv py_float rows st Hst) as (_ & _ & Hnth).
  destruct (Hnth i s Hs) as (row & c & Hrow & _ & Hb).
  destruct Hb as (_ & Hn & _ & _ & _ & _ & _ &
                  (start_time & end_time & time_note & H1 & H2 & H3 & Ho)
                  & _).
  exists row, start_time, end_time, time_note.
  split; [exact Hrow |]. split; [exact Hn |]. split; [exact H1 |].
  split; [exact H2 |]. split; [exact H3 |]. rewrite Ho.
  destruct (Py.truthy start_time) eqn:Es;
  destruct (Py.truthy end_time) eqn:Ee;
  destruct (Py.truthy time_note) eqn:En;
  truthy_hyps; cbn [andb]; repeat split; intros; try reflexivity; tauto.
Qed.

Lemma openingHours_field_witness :
  In (Proceed sample_final) (outcomes (generate Numeral.read sample_rows))
  /\ nth_error (spots sample_final) 0 = Some sample_spot
  /\ Spot.openingHours sample_spot = Some (Py.lit "9:00～17:00")
  /\ exists row start_time end_time time_note,
    nth_error (List.filter (emits Numeral.read) sample_rows) 0 = Some row
    /\ stripped row (Py.lit "名称") = Some (Spot.name sample_spot)
    /\ stripped row (Py.lit "開始時間") = Some start_time
    /\ stripped row (Py.lit "終了時間") = Some end_time
    /\ stripped row (Py.lit "利用可能日時特記事項") = Some time_note
    /\ (start_time <> [] /\ end_time <> [] ->
        Spot.openingHours sample_spot
        = Some (start_time ++ Py.lit "～" ++ end_time))
    /\ (~ (start_time <> [] /\ end_time <> []) -> time_note <> [] ->
        Spot.openingHours sample_spot = Some time_note)
    /\ (~ (start_time <> [] /\ end_time <> []) -> time_note = [] ->
        Spot.openingHours sample_spot = None).
Proof.
  split; [exact sample_final_outcome |]. split; [exact sample_spot_nth |].
  split; [vm_compute; reflexivity |].
  exact (openingHours_field Numeral.read sample_rows sample_final 0%nat
           sample_spot sample_final_outcome sample_spot_nth).
Defined.

(** C6.  The price of every record of the output is the stripped detailed
    price of its row (the row at the record's index among the rows that
    pass the tests) when that is non-empty, otherwise the stripped basic
    price when that is non-empty, and the record has no [price] key when
    both are empty. *)
Theorem price_field
    (py_float : str -> option float) (rows : list (gmap str cell))
    (st : state) (i : nat) (s : Spot.t) :
  In (Proceed st) (outcomes (generate py_float rows)) ->
  nth_error (spots st) i = Some s ->
  exists row price_basic price_detail,
    nth_error (List.filter (emits py_float) rows) i = Some row
    /\ stripped row (Py.lit "名称") = Some (Spot.name s)
    /\ stripped row (Py.lit "料金（基本）") = Some price_basic
    /\ stripped row (Py.lit "料金（詳細）") = Some price_detail
    /\ (price_detail <> [] -> Spot.price s = Some price_detail)
    /\ (price_detail = [] -> price_basic <> [] ->
        Spot.price s = Some price_basic)
    /\ (price_detail = [] -> price_basic = [] -> Spot.price s = None).
Proof.
  intros Hst Hs.
  destruct (generate_inv py_float rows st Hst) as (_ & _ & Hnth).
  destruct (Hnth i s Hs) as (row & c & Hrow & _ & Hb).
  destruct Hb as (_ & Hn & _ & _ & _ & _ & _ & _ &
                  (price_basic & price_detail & H1 & H2 & Hp)).
  exists row, price_basic, price_detail.
  split; [exact Hrow |]. split; [exact Hn |]. split; [exact H1 |].
  split; [exact H2 |]. rewrite Hp.
  destruct (Py.truthy price_detail) eqn:Ed;
  destruct (Py.truthy price_basic) eqn:Eb;
  truthy_hyps; repeat split; intros; try reflexivity; tauto.
Qed.

Lemma price_field_witness :
  In (Proceed sample_final) (outcomes (generate Numeral.read sample_rows))
  /\ nth_error (spots sample_final) 0 = Some sample_spot
  /\ Spot.price sample_spot = Some (Py.lit "500円")
  /\ exists row price_basic price_detail,
    nth_error (List.filter (emits Numeral.read) sample_rows) 0 = Some row
    /\ stripped row (Py.lit "名称") = Some (Spot.name sample_spot)
    /\ stripped row (Py.lit "料金（基本）") = Some price_basic
    /\ stripped row (Py.lit "料金（詳細）") = Some price_detail
    /\ (price_detail <> [] -> Spot.price sample_spot = Some price_detail)
    /\ (price_detail = [] -> price_basic <> [] ->
        Spot.price sample_spot = Some price_basic)
    /\ (price_detail = [] -> price_basic = [] ->
        Spot.price sample_spot = None).
Proof.
  split; [exact sample_final_outcome |]. split; [exact sample_spot_nth |].
  split; [vm_compute; reflexivity |].
  exact (price_field Numeral.read sample_rows sample_final 0%nat
           sample_spot sample_final_outcome sample_spot_nth).
Defined.

(** C7.  The congestion level of every record of the output is an integer
    from 1 to 5, drawn uniformly: a row that passes the tests makes exactly
    one call [random.randint(1, 5)] and stores the answer; and when each
    call is uniform and the calls are independent, the record at any index
    of the list has each of the five levels with probability 1/5, whatever
    the rows contain.  (The rows that count are those the loop gets
    through, which are all the rows when none stops the script.) *)
Theorem congestionLevel_uniform
    (py_float : str -> option float) (rows : list (gmap str cell)) :
  (forall st s,
     In (Proceed st) (outcomes (generate py_float rows)) -> In s (spots st) ->
     1 <= Spot.congestionLevel s <= 5)
  /\ (forall st row,
        emits py_float row = true ->
        exists mk : Z -> Spot.t,
          for_body py_float st row
            = RandInt 1 5 (fun c => Ret (Proceed (append_spot st (mk c))))
          /\ forall c, Spot.congestionLevel (mk c) = c)
  /\ (forall st,
        In (Proceed st) (outcomes (generate py_float rows)) ->
        length (spots st) = length (List.filter (emits py_float) rows))
  /\ (forall i c,
        (i < length (List.filter (emits py_float) (processed rows)))%nat ->
        1 <= c <= 5 ->
        (pr (generate py_float rows) (fun f => level_is i c (state_of f))
         == 1 # 5)%Q)
  /\ (Forall (fun row => aborts row = false) rows -> processed rows = rows).
Proof.
  split; [| split; [| split; [| split]]].
  - intros st s Hst Hs.
    destruct (generate_spot py_float rows st s Hst Hs)
      as (row & k & c & _ & Hc & Hb).
    destruct Hb as (_ & _ & _ & _ & _ & -> & _). exact Hc.
  - intros st row He.
    destruct (for_body_cases py_float st row)
      as [(He' & _) | [(_ & _ & mk & Hemit & Hmk) | (He' & _)]];
      [congruence | | congruence].
    exists mk. split; [exact Hemit |].
    intros c. destruct (Hmk c) as (_ & _ & _ & _ & _ & Hc & _). exact Hc.
  - intros st Hst. apply generate_inv in Hst. tauto.
  - intros i c Hi Hc. unfold generate.
    apply pr_level_uniform; [exact Hc | simpl; lia | simpl; exact Hi].
  - apply processed_all.
Qed.

Lemma congestionLevel_uniform_witness :
  In (Proceed sample_final) (outcomes (generate Numeral.read sample_rows))
  /\ In sample_spot (spots sample_final)
  /\ 1 <= Spot.congestionLevel sample_spot <= 5
  /\ (pr (generate Numeral.read sample_rows)
        (fun f => level_is 1 4 (state_of f)) == 1 # 5)%Q.
Proof.
  split; [exact sample_final_outcome |]. split; [exact sample_spot_in |].
  split.
  - exact (proj1 (congestionLevel_uniform Numeral.read sample_rows)
             sample_final sample_spot sample_final_outcome sample_spot_in).
  - apply (proj1 (proj2 (proj2 (proj2
             (congestionLevel_uniform Numeral.read sample_rows))))).
    + vm_compute. lia.
    + lia.
Defined.

(** C8.  Identifiers are sequential and without gaps: the counter starts at
    1; a pass over a row either leaves the list and the counter alone or
    appends one record and adds one to the counter; so the k-th record of
    the output, counting from 1, has the identifier [spot-k], and the
    counter ends one above the number of records. *)
Theorem ids_sequential
    (py_float : str -> option float) (rows : list (gmap str cell))
    (st : state) :
  In (Proceed st) (outcomes (generate py_float rows)) ->
  spot_id initial = 1
  /\ (forall st0 row f,
        In f (outcomes (for_body py_float st0 row)) ->
        (spots (state_of f) = spots st0 /\ spot_id (state_of f) = spot_id st0)
        \/ (exists s, spots (state_of f) = spots st0 ++ [s]
                      /\ spot_id (state_of f) = spot_id st0 + 1))
  /\ (forall k s,
        (1 <= k)%nat ->
        nth_error (spots st) (k - 1) = Some s ->
        Spot.id s = Py.lit "spot-" ++ Py.str_of_int (Z.of_nat k))
  /\ spot_id st = Z.of_nat (length (spots st)) + 1.
Proof.
  intros Hst. apply generate_inv in Hst. destruct Hst as (Hid & _ & Hnth).
  split; [reflexivity |]. split; [| split].
  - intros st0 row f H1.
    destruct (for_body_cases py_float st0 row)
      as [(_ & _ & Hskip) | [(_ & _ & mk & Hemit & _) | (_ & _ & Habort)]].
    + rewrite Hskip in H1. destruct H1 as [<- | []]. left. auto.
    + rewrite Hemit in H1. cbn [outcomes] in H1. apply in_flat_map in H1.
      destruct H1 as (c & _ & [<- | []]). right. exists (mk c). auto.
    + rewrite Habort in H1. destruct H1 as [<- | []]. left. auto.
  - intros k s Hk Hs.
    destruct (Hnth _ _ Hs) as (row & c & _ & _ & Hb).
    destruct Hb as (-> & _).
    replace (1 + Z.of_nat (k - 1)) with (Z.of_nat k) by lia. reflexivity.
  - lia.
Qed.

Lemma ids_sequential_witness :
  In (Proceed sample_final) (outcomes (generate Numeral.read sample_rows))
  /\ nth_error (spots sample_final) (2 - 1)
     = Some (nth 1 (spots sample_final) sample_spot)
  /\ Spot.id (nth 1 (spots sample_final) sample_spot) = Py.lit "spot-2"
  /\ spot_id sample_final = 3.
Proof.
  assert (H : nth_error (spots sample_final) (2 - 1)
              = Some (nth 1 (spots sample_final) sample_spot)).
  { vm_compute. reflexivity. }
  split; [exact sample_final_outcome |]. split; [exact H |].
  destruct (ids_sequential Numeral.read sample_rows sample_final
              sample_final_outcome) as (_ & _ & Hk & Hid).
  split.
  - exact (Hk 2%nat _ (le_S _ _ (le_n 1)) H).
  - exact Hid.
Defined.

(** C9.  Called without a radius, [findNearbySpots] does what it does with
    the radius 5: the two calls return the same list, and a spot is in it
    exactly when it is in [KYOTO_SPOTS] and its distance is at most 5. *)
Theorem findNearbySpots_default_radius
    (Math_sin Math_cos : float -> float) (Math_atan2 : float -> float -> float)
    (KYOTO_SPOTS : list Spot.t) (currentLoc : Coordinates) :
  findNearbySpots Math_sin Math_cos Math_atan2 KYOTO_SPOTS currentLoc None
  = findNearbySpots Math_sin Math_cos Math_atan2 KYOTO_SPOTS currentLoc
      (Some 5%float)
  /\ forall spot,
       In spot
         (findNearbySpots Math_sin Math_cos Math_atan2 KYOTO_SPOTS
            currentLoc None)
       <-> In spot KYOTO_SPOTS
           /\ (getDistanceFromLatLonInKm Math_sin Math_cos Math_atan2
                 (latitude currentLoc) (longitude currentLoc)
                 (latitude (Spot.location spot))
                 (longitude (Spot.location spot)) <=? 5)%float = true.
Proof.
  split; [reflexivity |].
  intros spot.
  destruct (findNearbySpots_near Math_sin Math_cos Math_atan2 KYOTO_SPOTS
              currentLoc 5%float) as (_ & H & _).
  apply H.
Qed.

(** C10, at a line with a latitude that is not a number.  The line is
    shorter than the header and has no field for the description.  The
    script does not reach the call of [float]: [strip] on the [None] of the
    description raises [AttributeError], the handler catches
    [ValueError] and [KeyError] only, and the script stops without
    reaching the rows that follow. *)
Theorem unparseable_short_line_stops_script
    (py_float : str -> option float) (st : state)
    (rest : list (gmap str cell)) :
  stripped row_short_badlat (Py.lit "緯度") = Some (Py.lit "不明")
  /\ Py.lit "不明" <> []
  /\ Numeral.read (Py.lit "不明") = None
  /\ get row_short_badlat (Py.lit "説明") = PyNone
  /\ for_body py_float st row_short_badlat
     = Ret (Uncaught AttributeError st)
  /\ for_rows py_float (row_short_badlat :: rest) st
     = Ret (Uncaught AttributeError st)
  /\ for_body py_float st row_short_badlat <> Ret (Proceed st).
Proof.
  assert (Hbody :
    for_body py_float st row_short_badlat
    = Ret (Uncaught AttributeError st)).
  { destruct (for_body_cases py_float st row_short_badlat)
      as [(_ & Ha & _) | [(_ & Ha & _) | (_ & _ & H)]];
      [vm_compute in Ha; discriminate | vm_compute in Ha; discriminate
      | exact H]. }
  assert (Hrows :
    for_rows py_float (row_short_badlat :: rest) st
    = Ret (Uncaught AttributeError st)).
  { cbn [for_rows]. unfold and_then. rewrite Hbody. reflexivity. }
  split; [vm_compute; reflexivity |]. split; [vm_compute; discriminate |].
  split; [vm_compute; reflexivity |]. split; [vm_compute; reflexivity |].
  split; [exact Hbody |]. split; [exact Hrows |].
  rewrite Hbody. discriminate.
Qed.

(* ================================================================== *)
(** ** Further properties of the generator *)

Lemma lstrip_blank (s : str) :
  Forall (fun c => Py.isspace c = true) s -> Py.lstrip s = [].
Proof.
  induction 1 as [| c s Hc _ IH]; simpl.
  - reflexivity.
  - rewrite Hc. exact IH.
Qed.

Lemma strip_blank (s : str) :
  Forall (fun c => Py.isspace c = true) s -> Py.strip s = [].
Proof. intros H. unfold Py.strip. rewrite lstrip_blank by exact H. reflexivity. Qed.

Lemma stripped_blank (row : gmap str cell) (key : str) :
  blank row key -> stripped row key = Some [].
Proof.
  unfold blank, stripped, get. destruct (row !! key) as [[s |] |]; simpl.
  - intros H. rewrite strip_blank by exact H. reflexivity.
  - intros [].
  - reflexivity.
Qed.

Lemma stripped_is_strip (row : gmap str cell) (key : str) (s : str) :
  stripped row key = Some s -> exists raw, s = Py.strip raw.
Proof.
  unfold stripped. destruct (get row key) as [raw |]; [| discriminate].
  intros H. injection H as <-. eauto.
Qed.

Lemma lstrip_head (s : str) (c : Py.char) (rest : str) :
  Py.lstrip s = c :: rest -> Py.isspace c = false.
Proof.
  induction s as [| d s IH]; simpl; [discriminate |].
  destruct (Py.isspace d) eqn:Hd; [exact IH |].
  intros H. injection H as <- _. exact Hd.
Qed.

Lemma lstrip_suffix (s : str) : exists pre, s = pre ++ Py.lstrip s.
Proof.
  induction s as [| d s [pre IH]]; simpl.
  - exists []. reflexivity.
  - destruct (Py.isspace d).
    + exists (d :: pre). simpl. f_equal. exact IH.
    + exists []. reflexivity.
Qed.

Lemma rstrip_prefix (s : str) : exists post, s = Py.rstrip s ++ post.
Proof.
  unfold Py.rstrip. destruct (lstrip_suffix (rev s)) as [pre H].
  exists (rev pre). rewrite <- rev_app_distr, <- H, rev_involutive.
  reflexivity.
Qed.

Lemma rstrip_last (s init : str) (c : Py.char) :
  Py.rstrip s = init ++ [c] -> Py.isspace c = false.
Proof.
  unfold Py.rstrip. intros H.
  apply (f_equal (@rev Py.char)) in H.
  rewrite rev_involutive, rev_app_distr in H. simpl in H.
  exact (lstrip_head _ _ _ H).
Qed.

(** A stripped string neither starts nor ends with whitespace. *)
Lemma strip_ends (s : str) :
  (forall c rest, Py.strip s = c :: rest -> Py.isspace c = false)
  /\ (forall init c, Py.strip s = init ++ [c] -> Py.isspace c = false).
Proof.
  unfold Py.strip. split.
  - intros c rest H.
    destruct (rstrip_prefix (Py.lstrip s)) as [post Hp].
    rewrite H in Hp. simpl in Hp. exact (lstrip_head _ _ _ Hp).
  - intros init c H. exact (rstrip_last _ _ _ H).
Qed.

Lemma str_of_int_inj (a b : Z) : Py.str_of_int a = Py.str_of_int b -> a = b.
Proof.
  unfold Py.str_of_int. intros H.
  apply (f_equal (List.map ascii_of_N)) in H.
  rewrite !List.map_map in H.
  rewrite !(List.map_ext _ (fun x => x) ascii_N_embedding), !List.map_id in H.
  apply (f_equal string_of_list_ascii) in H.
  rewrite !string_of_list_ascii_of_string in H.
  apply (f_equal NilZero.int_of_string) in H.
  assert (Hnil : forall z,
    Z.to_int z <> Decimal.Pos Decimal.Nil
    /\ Z.to_int z <> Decimal.Neg Decimal.Nil).
  { intros [| p | p]; simpl; split; try discriminate;
      intros E; injection E; apply Unsigned.to_uint_nonnil. }
  rewrite !NilZero.isi in H by apply Hnil.
  injection H as H. apply DecimalZ.to_int_inj. exact H.
Qed.

Lemma built_from_without_level (py_float : str -> option float)
    (row : gmap str cell) (k c c' : Z) (s s' : Spot.t) :
  built_from py_float row k c s -> built_from py_float row k c' s' ->
  without_level s = without_level s'.
Proof.
  intros (Hi & Hn & _ & _ & (text & Ht & Hd) & _
          & (lat_str & lon_str & Ha & Ho & Fa & Fo & _ & _)
          & (st & en & nt & H1 & H2 & H3 & Hh) & (pb & pd & H4 & H5 & Hp))
         (Hi' & Hn' & _ & _ & (text' & Ht' & Hd') & _
          & (lat_str' & lon_str' & Ha' & Ho' & Fa' & Fo' & _ & _)
          & (st' & en' & nt' & H1' & H2' & H3' & Hh')
          & (pb' & pd' & H4' & H5' & Hp')).
  assert (Hname : Spot.name s = Spot.name s') by congruence.
  assert (text = text') by congruence.
  assert (lat_str = lat_str') by congruence.
  assert (lon_str = lon_str') by congruence.
  assert (st = st') by congruence. assert (en = en') by congruence.
  assert (nt = nt') by congruence. assert (pb = pb') by congruence.
  assert (pd = pd') by congruence. subst.
  assert (Hloc : Spot.location s = Spot.location s').
  { destruct (Spot.location s), (Spot.location s').
    cbn [latitude longitude] in *. congruence. }
  unfold without_level.
  rewrite Hi, Hi', Hd, Hd', Hh, Hh', Hp, Hp', Hloc, Hname.
  reflexivity.
Qed.

Section Further.

Variable py_float : str -> option float.

Lemma for_rows_kept (rows : list (gmap str cell)) :
  forall st,
    same (for_rows py_float rows st)
         (for_rows py_float
            (List.filter (fun row => negb (skips py_float row)) rows) st).
Proof.
  induction rows as [| row rest IH]; intros st.
  - apply same_refl.
  - cbn [List.filter]. destruct (skips py_float row) eqn:Hs; cbn [negb].
    + cbn [for_rows]. unfold and_then at 1.
      rewrite (for_body_skip py_float row Hs). cbn [bind]. apply IH.
    + cbn [for_rows]. apply same_and_then; [apply same_refl | exact IH].
Qed.

(** X1.  The rows the loop passes over (rows that neither append a record
    nor stop the script: excluded by a keyword, with an empty name or
    coordinate, or with a coordinate that is 0 or not a number) have no
    effect: the run over a file and the run over the file without them are
    the same program, with the same endings and the same probabilities. *)
Theorem dropped_rows_have_no_effect (rows : list (gmap str cell)) :
  let kept := List.filter (fun row => negb (skips py_float row)) rows in
  same (generate py_float rows) (generate py_float kept)
  /\ outcomes (generate py_float rows) = outcomes (generate py_float kept)
  /\ (forall E, pr (generate py_float rows) E = pr (generate py_float kept) E).
Proof.
  intros kept. assert (H := for_rows_kept rows initial). fold kept in H.
  split; [exact H |]. split.
  - apply same_outcomes. exact H.
  - intros E. apply same_pr. exact H.
Qed.

(** X2.  No record of the output has a name in which a keyword of the
    exclusion list occurs. *)
Theorem names_avoid_keywords
    (rows : list (gmap str cell)) (st : state) (s : Spot.t)
    (keyword pre post : str) :
  In (Proceed st) (outcomes (generate py_float rows)) ->
  In s (spots st) ->
  In keyword exclude_keywords ->
  Spot.name s <> pre ++ keyword ++ post.
Proof.
  intros Hst Hs Hk Hname.
  destruct (generate_spot py_float rows st s Hst Hs)
    as (row & k & c & _ & _ & Hb).
  destruct Hb as (_ & _ & _ & Hex & _).
  assert (Hany :
    Py.any (fun kw => Py.contains kw (Spot.name s)) exclude_keywords = true).
  { unfold Py.any. apply existsb_exists. exists keyword.
    split; [exact Hk |]. apply contains_spec. eauto. }
  congruence.
Qed.

Lemma blank_not_emitted (row : gmap str cell) (key : str) :
  key = Py.lit "名称" \/ key = Py.lit "緯度" \/ key = Py.lit "経度" ->
  blank row key -> emits py_float row = false.
Proof.
  intros Hkey Hb. apply stripped_blank in Hb. unfold emits.
  destruct Hkey as [-> | [-> | ->]]; rewrite Hb;
    repeat match goal with
    | |- context [match stripped ?r ?k with _ => _ end] =>
        destruct (stripped r k); [| reflexivity]
    end;
    cbn [Py.truthy]; rewrite ?andb_false_r; reflexivity.
Qed.

(** X3.  A row in which the name, the latitude or the longitude column is
    missing, or holds nothing but whitespace, appends no record: it is
    dropped, unless a [None] in it stops the script.  A file all of whose
    rows are such and have no [None] that stops the script (a file without
    one of the three columns, or an empty file) gives no record and leaves
    the counter at 1. *)
Theorem blank_cell_row_dropped (key : str) :
  key = Py.lit "名称" \/ key = Py.lit "緯度" \/ key = Py.lit "経度" ->
  (forall st row,
     blank row key ->
     (aborts row = false /\ for_body py_float st row = Ret (Proceed st))
     \/ (aborts row = true
         /\ for_body py_float st row = Ret (Uncaught AttributeError st)))
  /\ (forall rows,
        Forall (fun row => blank row key /\ aborts row = false) rows ->
        generate py_float rows = Ret (Proceed initial)).
Proof.
  intros Hkey.
  assert (Hrow : forall st row,
    blank row key ->
    (aborts row = false /\ for_body py_float st row = Ret (Proceed st))
    \/ (aborts row = true
        /\ for_body py_float st row = Ret (Uncaught AttributeError st))).
  { intros st row Hb. assert (He := blank_not_emitted row key Hkey Hb).
    destruct (for_body_cases py_float st row)
      as [(_ & Ha & H) | [(He' & _) | (_ & Ha & H)]];
      [left; auto | congruence | right; auto]. }
  split; [exact Hrow |].
  intros rows Hall. unfold generate. generalize initial.
  induction Hall as [| row rest [Hb Ha] _ IH]; intros st; cbn [for_rows].
  - reflexivity.
  - unfold and_then.
    destruct (Hrow st row Hb) as [[_ H] | [Ha' _]]; [| congruence].
    rewrite H. cbn [bind]. apply IH.
Qed.

(** X4.  The name of the record at index [i] is the stripped name cell of
    the row at index [i] among the rows that pass the tests, and its
    latitude and longitude are what [float] returns for the stripped
    latitude and longitude cells of that row. *)
Theorem name_and_location_fields
    (rows : list (gmap str cell)) (st : state) (i : nat) (s : Spot.t) :
  In (Proceed st) (outcomes (generate py_float rows)) ->
  nth_error (spots st) i = Some s ->
  exists row lat_str lon_str,
    nth_error (List.filter (emits py_float) rows) i = Some row
    /\ stripped row (Py.lit "名称") = Some (Spot.name s)
    /\ stripped row (Py.lit "緯度") = Some lat_str
    /\ stripped row (Py.lit "経度") = Some lon_str
    /\ py_float lat_str = Some (latitude (Spot.location s))
    /\ py_float lon_str = Some (longitude (Spot.location s)).
Proof.
  intros Hst Hs.
  destruct (generate_inv py_float rows st Hst) as (_ & _ & Hnth).
  destruct (Hnth i s Hs) as (row & c & Hrow & _ & Hb).
  destruct Hb as (_ & Hn & _ & _ & _ & _ &
                  (lat_str & lon_str & Ha & Ho & Fa & Fo & _) & _).
  exists row, lat_str, lon_str. auto 10.
Qed.

(** X5.  The name of a record of the output neither starts nor ends with
    whitespace, and its description does not start with whitespace. *)
Theorem text_fields_trimmed
    (rows : list (gmap str cell)) (st : state) (s : Spot.t) :
  In (Proceed st) (outcomes (generate py_float rows)) ->
  In s (spots st) ->
  (forall c rest, Spot.name s = c :: rest -> Py.isspace c = false)
  /\ (forall init c, Spot.name s = init ++ [c] -> Py.isspace c = false)
  /\ (forall c rest, Spot.description s = c :: rest -> Py.isspace c = false).
Proof.
  intros Hst Hs.
  destruct (generate_spot py_float rows st s Hst Hs)
    as (row & k & c & _ & _ & Hb).
  destruct Hb as (_ & Hn & Hne & _ & (text & Ht & Hd) & _).
  apply stripped_is_strip in Hn, Ht.
  destruct Hn as [raw_name Hn]. destruct Ht as [raw_text Ht].
  destruct (strip_ends raw_name) as [Hhead Hlast].
  rewrite <- Hn in Hhead, Hlast.
  split; [exact Hhead |]. split; [exact Hlast |].
  intros d rest Hdesc. rewrite Hd in Hdesc.
  destruct (Py.truthy text) eqn:Htruthy.
  - destruct text as [| d' text']; [discriminate |].
    unfold Py.slice_to in Hdesc. cbn [firstn] in Hdesc.
    injection Hdesc as -> _.
    exact (proj1 (strip_ends raw_text) _ _ (eq_sym Ht)).
  - destruct (Spot.name s) as [| n name]; [congruence |].
    cbn [app] in Hdesc. injection Hdesc as -> _. exact (Hhead _ _ eq_refl).
Qed.

(** X6.  The description of a record of the output is never empty, and it
    has at most 150 characters unless it is the text made from the name. *)
Theorem description_nonempty
    (rows : list (gmap str cell)) (st : state) (s : Spot.t) :
  In (Proceed st) (outcomes (generate py_float rows)) ->
  In s (spots st) ->
  Spot.description s <> []
  /\ ((length (Spot.description s) <= 150)%nat
      \/ Spot.description s = Spot.name s ++ Py.lit "の観光スポット").
Proof.
  intros Hst Hs.
  destruct (generate_spot py_float rows st s Hst Hs)
    as (row & k & c & _ & _ & Hb).
  destruct Hb as (_ & _ & Hne & _ & (text & _ & Hd) & _).
  rewrite Hd.
  destruct (Py.truthy text) eqn:Ht.
  - split.
    + rewrite <- truthy_nonempty. unfold Py.slice_to.
      rewrite (truthy_slice_to 149). exact Ht.
    + left. apply firstn_le_length.
  - split; [| right; reflexivity].
    destruct (Spot.name s); [congruence | discriminate].
Qed.

(** X7.  A record of the output never carries an empty [openingHours] or an
    empty [price]: each key is absent or holds a non-empty text. *)
Theorem optional_fields_nonempty
    (rows : list (gmap str cell)) (st : state) (s : Spot.t) :
  In (Proceed st) (outcomes (generate py_float rows)) ->
  In s (spots st) ->
  Spot.openingHours s <> Some [] /\ Spot.price s <> Some [].
Proof.
  intros Hst Hs.
  destruct (generate_spot py_float rows st s Hst Hs)
    as (row & k & c & _ & _ & Hb).
  destruct Hb as (_ & _ & _ & _ & _ & _ & _ &
                  (start_time & end_time & time_note & _ & _ & _ & Ho) &
                  (price_basic & price_detail & _ & _ & Hp)).
  rewrite Ho, Hp. split.
  - destruct (Py.truthy start_time) eqn:Es;
    destruct (Py.truthy end_time) eqn:Ee;
    destruct (Py.truthy time_note) eqn:En;
    cbn [andb]; truthy_hyps; try congruence.
    all: intros H; injection H as H; apply app_eq_nil in H; tauto.
  - destruct (Py.truthy price_detail) eqn:Ed;
    destruct (Py.truthy price_basic) eqn:Eb;
    truthy_hyps; congruence.
Qed.

Lemma generate_ids_NoDup (rows : list (gmap str cell)) (st : state) :
  In (Proceed st) (outcomes (generate py_float rows)) ->
  List.NoDup (List.map Spot.id (spots st)).
Proof.
  intros Hst. destruct (generate_inv py_float rows st Hst) as (_ & _ & Hnth).
  apply NoDup_nth_error. intros i j Hi Heq.
  rewrite length_map in Hi.
  destruct (nth_error (spots st) i) as [s |] eqn:Ei;
    [| apply nth_error_None in Ei; lia].
  rewrite !nth_error_map, Ei in Heq. cbn in Heq.
  destruct (nth_error (spots st) j) as [s' |] eqn:Ej; [| discriminate].
  cbn in Heq. injection Heq as Heq.
  destruct (Hnth i s Ei) as (_ & _ & _ & _ & (Hid & _)).
  destruct (Hnth j s' Ej) as (_ & _ & _ & _ & (Hid' & _)).
  rewrite Hid, Hid' in Heq. apply app_inv_head in Heq.
  apply str_of_int_inj in Heq. lia.
Qed.

(** X8.  The identifiers of the records of the output are pairwise
    distinct: records at different indices have different identifiers. *)
Theorem ids_distinct
    (rows : list (gmap str cell)) (st : state) (i j : nat) (s s' : Spot.t) :
  In (Proceed st) (outcomes (generate py_float rows)) ->
  nth_error (spots st) i = Some s ->
  nth_error (spots st) j = Some s' ->
  Spot.id s = Spot.id s' ->
  i = j.
Proof.
  intros Hst Hi Hj Hid.
  assert (Hnd := generate_ids_NoDup rows st Hst).
  rewrite NoDup_nth_error in Hnd. apply Hnd.
  - rewrite length_map. apply nth_error_Some. congruence.
  - rewrite !nth_error_map, Hi, Hj. cbn. congruence.
Qed.

(** X9.  The random draws decide the congestion levels and nothing else:
    two possible outputs of the same file have the same counter and the
    same records apart from the levels. *)
Theorem outputs_agree_up_to_levels
    (rows : list (gmap str cell)) (st st' : state) :
  In (Proceed st) (outcomes (generate py_float rows)) ->
  In (Proceed st') (outcomes (generate py_float rows)) ->
  spot_id st = spot_id st'
  /\ List.map without_level (spots st) = List.map without_level (spots st').
Proof.
  intros Hst Hst'.
  destruct (generate_inv py_float rows st Hst) as (Hid & Hlen & Hnth).
  destruct (generate_inv py_float rows st' Hst') as (Hid' & Hlen' & Hnth').
  split; [lia |].
  apply nth_error_ext. intros i. rewrite !nth_error_map.
  destruct (nth_error (spots st) i) as [s |] eqn:Ei.
  - destruct (nth_error (spots st') i) as [s' |] eqn:Ei'.
    + destruct (Hnth i s Ei) as (row & c & Hrow & _ & Hb).
      destruct (Hnth' i s' Ei') as (row' & c' & Hrow' & _ & Hb').
      assert (row' = row) by congruence. subst row'.
      cbn. f_equal. exact (built_from_without_level _ _ _ _ _ _ _ Hb Hb').
    + apply nth_error_None in Ei'.
      assert (i < length (spots st))%nat
        by (apply nth_error_Some; congruence).
      lia.
  - destruct (nth_error (spots st') i) as [s' |] eqn:Ei'; [| reflexivity].
    apply nth_error_None in Ei.
    assert (i < length (spots st'))%nat
      by (apply nth_error_Some; congruence).
    lia.
Qed.

Lemma for_rows_levels (rows : list (gmap str cell)) :
  forall st0 levels,
    length levels = length (List.filter (emits py_float) (processed rows)) ->
    Forall (fun c => 1 <= c <= 5) levels ->
    exists f,
      In f (outcomes (for_rows py_float rows st0))
      /\ List.map Spot.congestionLevel (spots (state_of f))
         = List.map Spot.congestionLevel (spots st0) ++ levels.
Proof.
  induction rows as [| row rest IH]; intros st0 levels Hlen Hall.
  - destruct levels; [| discriminate].
    exists (Proceed st0). rewrite app_nil_r. split; [left |]; reflexivity.
  - cbn [List.filter for_rows processed] in *.
    destruct (for_body_cases py_float st0 row)
      as [(He & Ha & Hskip) | [(He & Ha & mk & Hemit & Hmk)
                              | (He & Ha & Habort)]];
      rewrite Ha in Hlen; cbn [List.filter] in Hlen; try rewrite He in Hlen.
    + destruct (IH st0 levels Hlen Hall) as (f & Hf & Hl).
      exists f. split; [| exact Hl].
      apply in_outcomes_and_then. left. exists st0.
      split; [rewrite Hskip; left; reflexivity | exact Hf].
    + destruct levels as [| c levels]; [discriminate |].
      inversion Hall as [| ? ? Hc Hall']; subst.
      injection Hlen as Hlen.
      destruct (IH (append_spot st0 (mk c)) levels Hlen Hall')
        as (f & Hf & Hl).
      exists f. split.
      * apply in_outcomes_and_then. left. exists (append_spot st0 (mk c)).
        split; [| exact Hf].
        rewrite Hemit. cbn [outcomes]. apply in_flat_map. exists c.
        split; [apply in_interval; exact Hc | left; reflexivity].
      * rewrite Hl. unfold append_spot. cbn [spots].
        rewrite List.map_app, <- app_assoc. cbn.
        destruct (Hmk c) as (_ & _ & _ & _ & _ & -> & _). reflexivity.
    + destruct levels; [| discriminate].
      exists (Uncaught AttributeError st0). split.
      * apply in_outcomes_and_then. right. exists AttributeError, st0.
        split; [reflexivity |]. rewrite Habort. left. reflexivity.
      * rewrite app_nil_r. reflexivity.
Qed.

(** X10.  Every way of giving each kept row a level from 1 to 5 is a
    possible run: for every list of levels, one per row that passes the
    tests among the rows the loop gets through, some run ends with exactly
    these levels; when no row stops the script, these are all the kept rows
    and the run comes to the end of the loop. *)
Theorem every_level_assignment_possible
    (rows : list (gmap str cell)) (levels : list Z) :
  length levels = length (List.filter (emits py_float) (processed rows)) ->
  Forall (fun c => 1 <= c <= 5) levels ->
  exists f,
    In f (outcomes (generate py_float rows))
    /\ List.map Spot.congestionLevel (spots (state_of f)) = levels
    /\ (Forall (fun row => aborts row = false) rows ->
        processed rows = rows /\ f = Proceed (state_of f)).
Proof.
  intros Hlen Hall.
  destruct (for_rows_levels rows initial levels Hlen Hall) as (f & Hf & Hl).
  exists f. split; [exact Hf |]. split; [exact Hl |].
  intros Hno. split; [apply processed_all; exact Hno |].
  destruct (for_rows_proceeds py_float rows Hno _ _ Hf) as [st ->].
  reflexivity.
Qed.

(** X11.  Rows added at the end of the file leave the records of the rows
    before them as they are: an output of the longer file starts with the
    records of an output of the shorter one, identifiers included, and its
    further records are numbered on from there. *)
Theorem appended_rows_keep_records
    (rows more : list (gmap str cell)) (st : state) :
  In (Proceed st) (outcomes (generate py_float (rows ++ more))) ->
  exists st1 new,
    In (Proceed st1) (outcomes (generate py_float rows))
    /\ In (Proceed st) (outcomes (for_rows py_float more st1))
    /\ spots st = spots st1 ++ new
    /\ length new = length (List.filter (emits py_float) more)
    /\ spot_id st = spot_id st1 + Z.of_nat (length new).
Proof.
  intros Hst. unfold generate in Hst.
  rewrite (same_outcomes _ _ (for_rows_app py_float rows more initial)) in Hst.
  apply in_outcomes_and_then in Hst.
  destruct Hst as [(st1 & H1 & Hst) | (e & st' & Hf & _)]; [| discriminate].
  destruct (for_rows_inv py_float more _ _ Hst)
    as (Hp & new & Hsp & Hid & Hlen & _).
  rewrite (Hp st eq_refl) in Hlen. cbn [state_of] in Hsp, Hid.
  exists st1, new. auto 10.
Qed.

(** X15.  On a row that does not stop the script, an empty stripped name,
    latitude or longitude, or a latitude or longitude that parses to a
    number equal to 0, makes the loop drop the row; and every record of
    the output has a non-empty name and a latitude and a longitude
    different from 0. *)
Theorem empty_or_zero_row_dropped :
  (forall st row name lat_str lon_str,
     aborts row = false ->
     stripped row (Py.lit "名称") = Some name ->
     stripped row (Py.lit "緯度") = Some lat_str ->
     stripped row (Py.lit "経度") = Some lon_str ->
     name = [] \/ lat_str = [] \/ lon_str = []
     \/ (exists lat, py_float lat_str = Some lat /\ (lat =? 0)%float = true)
     \/ (exists lon, py_float lon_str = Some lon /\ (lon =? 0)%float = true) ->
     for_body py_float st row = Ret (Proceed st))
  /\ (forall rows st s,
        In (Proceed st) (outcomes (generate py_float rows)) ->
        In s (spots st) ->
        Spot.name s <> []
        /\ (latitude (Spot.location s) =? 0)%float = false
        /\ (longitude (Spot.location s) =? 0)%float = false).
Proof.
  split.
  - intros st row name lat_str lon_str Ha Hn Hla Hlo H.
    destruct (for_body_cases py_float st row)
      as [(_ & _ & Hskip) | [(He & _) | (_ & Ha' & _)]];
      [exact Hskip | exfalso | congruence].
    unfold emits in He. rewrite Hn, Hla, Hlo in He.
    destruct (stripped row (Py.lit "説明")); [| discriminate].
    repeat (apply andb_true_iff in He; destruct He as [He ?]).
    destruct H as [H | [H | [H | [(lat & H & Hz) | (lon & H & Hz)]]]].
    + rewrite H in *. discriminate.
    + rewrite H in *. discriminate.
    + rewrite H in *. discriminate.
    + rewrite H in *. destruct (py_float lon_str); [| discriminate].
      rewrite Hz in *. discriminate.
    + rewrite H in *. destruct (py_float lat_str); [| discriminate].
      rewrite Hz in *. rewrite andb_false_r in *. discriminate.
  - intros rows st s Hst Hs.
    destruct (generate_spot py_float rows st s Hst Hs)
      as (row & k & c & _ & _ & Hb).
    destruct Hb as (_ & _ & Hne & _ & _ & _ &
                    (lat_str & lon_str & _ & _ & _ & _ & Zlat & Zlon) & _).
    auto.
Qed.

(** X16.  On a row that does not stop the script, a latitude or longitude
    text that is not empty and is not a number makes the loop skip the
    row, and only that row: the [try] suite reaches a [continue] or raises
    [ValueError] with the list and the counter as they were, the handler
    goes on with the next row, and the loop over a file that has the row
    anywhere in it is the loop over the file without it. *)
Theorem unparseable_row_skipped (row : gmap str cell) (lat_str lon_str : str) :
  aborts row = false ->
  stripped row (Py.lit "緯度") = Some lat_str ->
  stripped row (Py.lit "経度") = Some lon_str ->
  (lat_str <> [] /\ py_float lat_str = None)
  \/ (lon_str <> [] /\ py_float lon_str = None) ->
  (forall st,
     (try_suite py_float st row = Ret (Raise ValueError st)
      \/ try_suite py_float st row = Ret (Continue st))
     /\ for_body py_float st row = Ret (Proceed st))
  /\ (forall rest st,
        for_rows py_float (row :: rest) st = for_rows py_float rest st)
  /\ (forall before after st,
        same (for_rows py_float (before ++ row :: after) st)
             (for_rows py_float (before ++ after) st))
  /\ (forall before after,
        outcomes (generate py_float (before ++ row :: after))
        = outcomes (generate py_float (before ++ after)))
  /\ (forall before after E,
        pr (generate py_float (before ++ row :: after)) E
        = pr (generate py_float (before ++ after)) E).
Proof.
  intros Ha Hla Hlo H.
  assert (Htry : forall st,
    try_suite py_float st row = Ret (Raise ValueError st)
    \/ try_suite py_float st row = Ret (Continue st)).
  { intros st. unfold try_suite, strip_then, aborts, stripped, missing in *.
    destruct (get row (Py.lit "名称")) as [raw_name |]; [| discriminate].
    destruct (get row (Py.lit "緯度")) as [raw_lat |]; [| discriminate].
    destruct (get row (Py.lit "経度")) as [raw_lon |]; [| discriminate].
    destruct (get row (Py.lit "説明")) as [raw_text |]; [| discriminate].
    injection Hla as Hla. injection Hlo as Hlo. rewrite Hla, Hlo.
    cbv beta iota zeta in Ha |- *.
    destruct (Py.any _ exclude_keywords); [right; reflexivity |].
    destruct (get row (Py.lit "開始時間")); [| discriminate].
    destruct (get row (Py.lit "終了時間")); [| discriminate].
    destruct (get row (Py.lit "利用可能日時特記事項")); [| discriminate].
    destruct (get row (Py.lit "料金（基本）")); [| discriminate].
    destruct (get row (Py.lit "料金（詳細）")); [| discriminate].
    cbv beta iota.
    destruct (Py.truthy (Py.strip raw_name)); [| right; reflexivity].
    destruct (Py.truthy lat_str) eqn:Tlat; [| right; reflexivity].
    destruct (Py.truthy lon_str) eqn:Tlon; [| right; reflexivity].
    cbn [negb orb].
    destruct (py_float lat_str) as [lat |] eqn:Flat; [| left; reflexivity].
    destruct (py_float lon_str) as [lon |] eqn:Flon; [| left; reflexivity].
    destruct H as [[_ H] | [_ H]]; discriminate. }
  assert (Hbody : forall st, for_body py_float st row = Ret (Proceed st)).
  { intros st. unfold for_body.
    destruct (Htry st) as [-> | ->]; reflexivity. }
  split; [intros st; split; [apply Htry | apply Hbody] |].
  split; [intros rest st; cbn [for_rows]; unfold and_then;
          rewrite Hbody; reflexivity |].
  split; [intros before after st; apply for_rows_skip; exact Hbody |].
  split; [intros before after; apply same_outcomes, for_rows_skip;
          exact Hbody |].
  intros before after E. apply same_pr, for_rows_skip. exact Hbody.
Qed.

End Further.

(* ================================================================== *)
(** ** Further properties of [findNearbySpots] *)

Lemma leb_nan (x : float) : (x <=? nan)%float = false.
Proof.
  rewrite FloatAxioms.leb_spec. change (Prim2SF nan) with S754_nan.
  unfold SFleb, SFcompare. destruct (Prim2SF x) as [| [] | | [] ?]; reflexivity.
Qed.

Lemma filter_none {A : Type} (f : A -> bool) (l : list A) :
  (forall x, f x = false) -> List.filter f l = [].
Proof.
  intros H. induction l as [| x l IH]; simpl; [reflexivity |].
  rewrite H. exact IH.
Qed.

Lemma filter_twice {A : Type} (f g : A -> bool) (l : list A) :
  List.filter f (List.filter g l) = List.filter (fun x => f x && g x) l.
Proof.
  induction l as [| x l IH]; simpl; [reflexivity |].
  destruct (g x); simpl.
  - destruct (f x); simpl; congruence.
  - rewrite andb_false_r. exact IH.
Qed.

Lemma NoDup_map_filter {A B : Type} (g : A -> B) (f : A -> bool)
    (l : list A) :
  List.NoDup (List.map g l) -> List.NoDup (List.map g (List.filter f l)).
Proof.
  induction l as [| x l IH]; cbn [List.filter List.map]; intros Hall.
  - constructor.
  - inversion Hall as [| ? ? Hx Hl]; subst.
    destruct (f x); [| exact (IH Hl)].
    cbn [List.map]. constructor; [| exact (IH Hl)].
    intros Hmem. apply Hx. apply in_map_iff in Hmem.
    destruct Hmem as (y & Hy & Hmem). apply filter_In in Hmem.
    apply in_map_iff. exists y. tauto.
Qed.

Section NearbyFacts.

Variables Math_sin Math_cos : float -> float.
Variable Math_atan2 : float -> float -> float.

(** The result for any second argument, given or not. *)
Lemma findNearbySpots_any_radius
    (KYOTO_SPOTS : list Spot.t) (currentLoc : Coordinates)
    (radiusKm : option float) :
  let dist spot :=
    getDistanceFromLatLonInKm Math_sin Math_cos Math_atan2
      (latitude currentLoc) (longitude currentLoc)
      (latitude (Spot.location spot)) (longitude (Spot.location spot)) in
  let within spot := (dist spot <=? default 5 radiusKm)%float in
  let result :=
    findNearbySpots Math_sin Math_cos Math_atan2 KYOTO_SPOTS currentLoc
      radiusKm in
  Permutation result (List.filter within KYOTO_SPOTS)
  /\ (forall spot, In spot result <-> In spot KYOTO_SPOTS /\ within spot = true)
  /\ StronglySorted
       (fun a b => Spot.congestionLevel a <= Spot.congestionLevel b) result
  /\ (forall c,
        List.filter (has_key Spot.congestionLevel c) result
        = List.filter (has_key Spot.congestionLevel c)
            (List.filter within KYOTO_SPOTS)).
Proof.
  exact (findNearbySpots_near Math_sin Math_cos Math_atan2 KYOTO_SPOTS
           currentLoc (default 5%float radiusKm)).
Qed.

(** X12.  With a radius that is not a number, no spot is near: the
    comparison [dist <= radiusKm] is false for every distance, and the
    result is empty. *)
Theorem findNearbySpots_nan_radius
    (KYOTO_SPOTS : list Spot.t) (currentLoc : Coordinates) :
  findNearbySpots Math_sin Math_cos Math_atan2 KYOTO_SPOTS currentLoc
    (Some nan)
  = [].
Proof.
  unfold findNearbySpots. cbn [default].
  rewrite filter_none; [reflexivity |].
  intros spot. apply leb_nan.
Qed.

(** X13.  The spot [findNearbySpots] puts first is the least crowded of the
    near spots, and among the near spots of its level it is the one that
    comes first in [KYOTO_SPOTS]; the result is empty only when no spot is
    near. *)
Theorem findNearbySpots_first
    (KYOTO_SPOTS : list Spot.t) (currentLoc : Coordinates)
    (radiusKm : option float) :
  let within spot :=
    (getDistanceFromLatLonInKm Math_sin Math_cos Math_atan2
       (latitude currentLoc) (longitude currentLoc)
       (latitude (Spot.location spot)) (longitude (Spot.location spot))
     <=? default 5 radiusKm)%float in
  let result :=
    findNearbySpots Math_sin Math_cos Math_atan2 KYOTO_SPOTS currentLoc
      radiusKm in
  (result = [] ->
   forall spot, In spot KYOTO_SPOTS -> within spot = false)
  /\ (forall first rest,
        result = first :: rest ->
        (forall spot,
           In spot KYOTO_SPOTS -> within spot = true ->
           Spot.congestionLevel first <= Spot.congestionLevel spot)
        /\ hd_error
             (List.filter
                (fun spot =>
                   within spot
                   && (Spot.congestionLevel spot
                       =? Spot.congestionLevel first))
                KYOTO_SPOTS)
           = Some first).
Proof.
  intros within result.
  destruct (findNearbySpots_any_radius KYOTO_SPOTS currentLoc radiusKm)
    as (_ & Hin & Hsorted & Hstable).
  fold within result in Hin, Hsorted, Hstable.
  split.
  - intros Hnil spot Hspot.
    destruct (within spot) eqn:Hw; [| reflexivity].
    assert (H : In spot result) by (apply Hin; auto).
    rewrite Hnil in H. destruct H.
  - intros first rest Hres. rewrite Hres in Hin, Hsorted, Hstable. split.
    + intros spot Hspot Hw.
      assert (H : In spot (first :: rest)) by (apply Hin; auto).
      destruct H as [<- | H]; [lia |].
      inversion Hsorted as [| ? ? _ Hall]; subst.
      rewrite List.Forall_forall in Hall. apply Hall. exact H.
    + specialize (Hstable (Spot.congestionLevel first)).
      cbn [List.filter] in Hstable. unfold has_key at 1 in Hstable.
      rewrite Z.eqb_refl in Hstable.
      rewrite filter_twice in Hstable. unfold has_key in Hstable.
      rewrite (List.filter_ext _
                 (fun x => (Spot.congestionLevel x
                            =? Spot.congestionLevel first) && within x)).
      * rewrite <- Hstable. reflexivity.
      * intros x. apply andb_comm.
Qed.

(** X14.  Over a collection the generator can print, every spot
    [findNearbySpots] returns is a record of the collection, with a
    non-empty name, a level from 1 to 5 and an identifier [spot-k] for a
    [k] from 1 to the number of records; and no two spots of the result
    have the same identifier. *)
Theorem findNearbySpots_of_generated
    (py_float : str -> option float) (rows : list (gmap str cell))
    (st : state) (currentLoc : Coordinates) (radiusKm : option float) :
  In (Proceed st) (outcomes (generate py_float rows)) ->
  let result :=
    findNearbySpots Math_sin Math_cos Math_atan2 (spots st) currentLoc
      radiusKm in
  (forall spot,
     In spot result ->
     In spot (spots st)
     /\ Spot.name spot <> []
     /\ 1 <= Spot.congestionLevel spot <= 5
     /\ exists k,
          (1 <= k <= length (spots st))%nat
          /\ Spot.id spot = Py.lit "spot-" ++ Py.str_of_int (Z.of_nat k))
  /\ List.NoDup (List.map Spot.id result).
Proof.
  intros Hst result.
  destruct (findNearbySpots_any_radius (spots st) currentLoc radiusKm)
    as (Hperm & Hin & _ & _).
  fold result in Hperm, Hin.
  destruct (generate_inv py_float rows st Hst) as (_ & _ & Hnth).
  split.
  - intros spot Hspot. apply Hin in Hspot. destruct Hspot as [Hspot _].
    split; [exact Hspot |].
    apply In_nth_error in Hspot. destruct Hspot as [i Hi].
    destruct (Hnth i spot Hi) as (row & c & _ & Hc & Hb).
    destruct Hb as (Hid & _ & Hne & _ & _ & Hl & _).
    split; [exact Hne |]. split; [rewrite Hl; exact Hc |].
    exists (S i). split.
    + assert (i < length (spots st))%nat
        by (apply nth_error_Some; congruence).
      lia.
    + rewrite Hid. f_equal. f_equal. lia.
  - eapply Permutation_NoDup.
    + apply Permutation_map. symmetry. exact Hperm.
    + apply NoDup_map_filter. exact (generate_ids_NoDup py_float rows st Hst).
Qed.

End NearbyFacts.


(* ================================================================== *)
(** ** The further properties on concrete rows *)

Lemma names_avoid_keywords_witness :
  In (Proceed sample_final) (outcomes (generate Numeral.read sample_rows))
  /\ In sample_spot (spots sample_final)
  /\ In (Py.lit "ホテル") exclude_keywords
  /\ Spot.name sample_spot <> Py.lit "京都" ++ Py.lit "ホテル" ++ [].
Proof.
  assert (Hk : In (Py.lit "ホテル") exclude_keywords).
  { right. right. right. left. reflexivity. }
  split; [exact sample_final_outcome |]. split; [exact sample_spot_in |].
  split; [exact Hk |].
  exact (names_avoid_keywords Numeral.read sample_rows sample_final
           sample_spot _ _ _ sample_final_outcome sample_spot_in Hk).
Defined.

Lemma blank_cell_row_dropped_witness :
  let row := row_of [("名称", "東寺"); ("緯度", "  ")]%string in
  blank row (Py.lit "緯度")
  /\ blank row (Py.lit "経度")
  /\ aborts row = false
  /\ for_body Numeral.read initial row = Ret (Proceed initial)
  /\ generate Numeral.read [row; row] = Ret (Proceed initial)
  /\ blank row_short_blank (Py.lit "名称")
  /\ for_body Numeral.read initial row_short_blank
     = Ret (Uncaught AttributeError initial).
Proof.
  intros row.
  assert (Hlat : blank row (Py.lit "緯度")).
  { vm_compute. repeat constructor. }
  assert (Hlon : blank row (Py.lit "経度")).
  { vm_compute. exact I. }
  assert (Ha : aborts row = false) by (vm_compute; reflexivity).
  assert (Hshort : blank row_short_blank (Py.lit "名称")).
  { vm_compute. repeat constructor. }
  destruct (blank_cell_row_dropped Numeral.read (Py.lit "緯度")
              (or_intror (or_introl eq_refl))) as [Hrow _].
  destruct (blank_cell_row_dropped Numeral.read (Py.lit "経度")
              (or_intror (or_intror eq_refl))) as [_ Hfile].
  destruct (blank_cell_row_dropped Numeral.read (Py.lit "名称")
              (or_introl eq_refl)) as [Hname _].
  split; [exact Hlat |]. split; [exact Hlon |]. split; [exact Ha |].
  split; [| split; [| split; [exact Hshort |]]].
  - destruct (Hrow initial row Hlat) as [[_ H] | [Ha' _]];
      [exact H | congruence].
  - apply Hfile. repeat constructor; assumption.
  - destruct (Hname initial row_short_blank Hshort) as [[Ha' _] | [_ H]];
      [vm_compute in Ha'; discriminate | exact H].
Defined.

Lemma name_and_location_fields_witness :
  In (Proceed sample_final) (outcomes (generate Numeral.read sample_rows))
  /\ nth_error (spots sample_final) 0 = Some sample_spot
  /\ exists row lat_str lon_str,
       nth_error (List.filter (emits Numeral.read) sample_rows) 0 = Some row
       /\ stripped row (Py.lit "名称") = Some (Spot.name sample_spot)
       /\ stripped row (Py.lit "緯度") = Some lat_str
       /\ stripped row (Py.lit "経度") = Some lon_str
       /\ Numeral.read lat_str = Some (latitude (Spot.location sample_spot))
       /\ Numeral.read lon_str
          = Some (longitude (Spot.location sample_spot)).
Proof.
  split; [exact sample_final_outcome |]. split; [exact sample_spot_nth |].
  exact (name_and_location_fields Numeral.read sample_rows sample_final
           0%nat sample_spot sample_final_outcome sample_spot_nth).
Defined.

Lemma text_fields_trimmed_witness :
  In (Proceed sample_final) (outcomes (generate Numeral.read sample_rows))
  /\ In sample_spot (spots sample_final)
  /\ Spot.name sample_spot = 37329%N :: Py.lit "閣寺"
  /\ Py.isspace 37329%N = false.
Proof.
  assert (Hname : Spot.name sample_spot = 37329%N :: Py.lit "閣寺").
  { vm_compute. reflexivity. }
  split; [exact sample_final_outcome |]. split; [exact sample_spot_in |].
  split; [exact Hname |].
  exact (proj1 (text_fields_trimmed Numeral.read sample_rows sample_final
                  sample_spot sample_final_outcome sample_spot_in)
           _ _ Hname).
Defined.

Lemma description_nonempty_witness :
  In (Proceed sample_final) (outcomes (generate Numeral.read sample_rows))
  /\ In sample_spot (spots sample_final)
  /\ Spot.description sample_spot <> []
  /\ ((length (Spot.description sample_spot) <= 150)%nat
      \/ Spot.description sample_spot
         = Spot.name sample_spot ++ Py.lit "の観光スポット").
Proof.
  split; [exact sample_final_outcome |]. split; [exact sample_spot_in |].
  exact (description_nonempty Numeral.read sample_rows sample_final
           sample_spot sample_final_outcome sample_spot_in).
Defined.

Lemma optional_fields_nonempty_witness :
  In (Proceed sample_final) (outcomes (generate Numeral.read sample_rows))
  /\ In sample_spot (spots sample_final)
  /\ Spot.openingHours sample_spot <> Some []
  /\ Spot.price sample_spot <> Some [].
Proof.
  split; [exact sample_final_outcome |]. split; [exact sample_spot_in |].
  exact (optional_fields_nonempty Numeral.read sample_rows sample_final
           sample_spot sample_final_outcome sample_spot_in).
Defined.

Lemma ids_distinct_witness :
  In (Proceed sample_final) (outcomes (generate Numeral.read sample_rows))
  /\ nth_error (spots sample_final) 0 = Some sample_spot
  /\ Spot.id sample_spot = Spot.id sample_spot
  /\ 0%nat = 0%nat.
Proof.
  split; [exact sample_final_outcome |]. split; [exact sample_spot_nth |].
  split; [reflexivity |].
  exact (ids_distinct Numeral.read sample_rows sample_final 0 0
           sample_spot sample_spot sample_final_outcome
           sample_spot_nth sample_spot_nth eq_refl).
Defined.

Lemma outputs_agree_up_to_levels_witness :
  let other :=
    state_of (nth 24 (outcomes (generate Numeral.read sample_rows))
                (Proceed initial)) in
  In (Proceed sample_final) (outcomes (generate Numeral.read sample_rows))
  /\ In (Proceed other) (outcomes (generate Numeral.read sample_rows))
  /\ List.map Spot.congestionLevel (spots sample_final) = [3; 1]
  /\ List.map Spot.congestionLevel (spots other) = [5; 5]
  /\ spot_id sample_final = spot_id other
  /\ List.map without_level (spots sample_final)
     = List.map without_level (spots other).
Proof.
  intros other.
  assert (Hother :
    In (Proceed other) (outcomes (generate Numeral.read sample_rows))).
  { replace (Proceed other)
      with (nth 24 (outcomes (generate Numeral.read sample_rows))
              (Proceed initial))
      by (vm_compute; reflexivity).
    apply nth_In. vm_compute. lia. }
  split; [exact sample_final_outcome |]. split; [exact Hother |].
  split; [vm_compute; reflexivity |]. split; [vm_compute; reflexivity |].
  exact (outputs_agree_up_to_levels Numeral.read sample_rows sample_final
           other sample_final_outcome Hother).
Defined.

Lemma every_level_assignment_possible_witness :
  length [2; 5]
  = length (List.filter (emits Numeral.read) (processed sample_rows))
  /\ Forall (fun c => 1 <= c <= 5) [2; 5]
  /\ exists f,
       In f (outcomes (generate Numeral.read sample_rows))
       /\ List.map Spot.congestionLevel (spots (state_of f)) = [2; 5]
       /\ f = Proceed (state_of f).
Proof.
  assert (Hlen :
    length [2; 5]
    = length (List.filter (emits Numeral.read) (processed sample_rows))).
  { vm_compute. reflexivity. }
  assert (Hall : Forall (fun c => 1 <= c <= 5) [2; 5]).
  { repeat constructor; lia. }
  assert (Hno : Forall (fun row => aborts row = false) sample_rows).
  { repeat constructor; vm_compute; reflexivity. }
  split; [exact Hlen |]. split; [exact Hall |].
  destruct (every_level_assignment_possible Numeral.read sample_rows [2; 5]
              Hlen Hall) as (f & Hf & Hl & Hp).
  exists f. split; [exact Hf |]. split; [exact Hl |].
  exact (proj2 (Hp Hno)).
Defined.

Lemma appended_rows_keep_records_witness :
  In (Proceed sample_final)
    (outcomes (generate Numeral.read
                 ([row_kinkakuji; row_hotel]
                  ++ [row_badlat; row_zero; row_arashiyama])))
  /\ exists st1 new,
       In (Proceed st1)
         (outcomes (generate Numeral.read [row_kinkakuji; row_hotel]))
       /\ In (Proceed sample_final)
            (outcomes (for_rows Numeral.read
                         [row_badlat; row_zero; row_arashiyama] st1))
       /\ spots sample_final = spots st1 ++ new
       /\ length new
          = length (List.filter (emits Numeral.read)
                      [row_badlat; row_zero; row_arashiyama])
       /\ spot_id sample_final = spot_id st1 + Z.of_nat (length new).
Proof.
  split; [exact sample_final_outcome |].
  exact (appended_rows_keep_records Numeral.read
           [row_kinkakuji; row_hotel] [row_badlat; row_zero; row_arashiyama]
           sample_final sample_final_outcome).
Defined.

Lemma empty_or_zero_row_dropped_witness :
  aborts row_zero = false
  /\ for_body Numeral.read initial row_zero = Ret (Proceed initial)
  /\ Spot.name sample_spot <> []
  /\ (latitude (Spot.location sample_spot) =? 0)%float = false
  /\ (longitude (Spot.location sample_spot) =? 0)%float = false.
Proof.
  assert (Ha : aborts row_zero = false) by (vm_compute; reflexivity).
  split; [exact Ha |]. split.
  - apply (proj1 (empty_or_zero_row_dropped Numeral.read) initial row_zero
             (Py.lit "清水寺") (Py.lit "0.0") (Py.lit "135.78") Ha);
      try (vm_compute; reflexivity).
    right. right. right. left. exists 0%float.
    split; vm_compute; reflexivity.
  - exact (proj2 (empty_or_zero_row_dropped Numeral.read)
             sample_rows sample_final sample_spot
             sample_final_outcome sample_spot_in).
Defined.

Lemma unparseable_row_skipped_witness :
  aborts row_badlat = false
  /\ stripped row_badlat (Py.lit "緯度") = Some (Py.lit "不明")
  /\ (Py.lit "不明" <> [] /\ Numeral.read (Py.lit "不明") = None)
  /\ try_suite Numeral.read initial row_badlat
     = Ret (Raise ValueError initial)
  /\ for_body Numeral.read initial row_badlat = Ret (Proceed initial)
  /\ outcomes (generate Numeral.read
                 ([row_kinkakuji] ++ row_badlat :: [row_arashiyama]))
     = outcomes (generate Numeral.read ([row_kinkakuji] ++ [row_arashiyama])).
Proof.
  assert (Ha : aborts row_badlat = false) by (vm_compute; reflexivity).
  assert (Hla : stripped row_badlat (Py.lit "緯度") = Some (Py.lit "不明"))
    by (vm_compute; reflexivity).
  assert (Hlo : stripped row_badlat (Py.lit "経度") = Some (Py.lit "135.67"))
    by (vm_compute; reflexivity).
  assert (H : Py.lit "不明" <> [] /\ Numeral.read (Py.lit "不明") = None).
  { split; [vm_compute; discriminate | vm_compute; reflexivity]. }
  split; [exact Ha |]. split; [exact Hla |]. split; [exact H |].
  split; [vm_compute; reflexivity |].
  destruct (unparseable_row_skipped Numeral.read row_badlat _ _ Ha Hla Hlo
              (or_introl H)) as (Hbody & _ & _ & Hout & _).
  split.
  - exact (proj2 (Hbody initial)).
  - exact (Hout [row_kinkakuji] [row_arashiyama]).
Defined.

Lemma findNearbySpots_first_witness :
  let here := Spot.location sample_spot in
  let result :=
    findNearbySpots Approx.sin Approx.cos Approx.atan2
      (spots sample_final) here (Some 10%float) in
  let first := nth 1 (spots sample_final) sample_spot in
  result = [first; sample_spot]
  /\ Spot.congestionLevel first <= Spot.congestionLevel sample_spot.
Proof.
  intros here result first.
  assert (Hres : result = [first; sample_spot]).
  { vm_compute. reflexivity. }
  split; [exact Hres |].
  destruct (findNearbySpots_first Approx.sin Approx.cos Approx.atan2
              (spots sample_final) here (Some 10%float))
    as [_ Hfirst].
  destruct (Hfirst first [sample_spot] Hres) as [Hleast _].
  apply Hleast; [exact sample_spot_in | vm_compute; reflexivity].
Defined.

Lemma findNearbySpots_of_generated_witness :
  let here := Spot.location sample_spot in
  let result :=
    findNearbySpots Approx.sin Approx.cos Approx.atan2
      (spots sample_final) here None in
  In (Proceed sample_final) (outcomes (generate Numeral.read sample_rows))
  /\ result = [sample_spot]
  /\ Spot.name sample_spot <> []
  /\ 1 <= Spot.congestionLevel sample_spot <= 5
  /\ List.NoDup (List.map Spot.id result).
Proof.
  intros here result.
  assert (Hres : result = [sample_spot]) by (vm_compute; reflexivity).
  assert (Hin : In sample_spot result) by (rewrite Hres; left; reflexivity).
  destruct (findNearbySpots_of_generated Approx.sin Approx.cos Approx.atan2
              Numeral.read sample_rows sample_final
              here None sample_final_outcome) as [Hspot Hnodup].
  destruct (Hspot sample_spot Hin) as (_ & Hname & Hlevel & _).
  split; [exact sample_final_outcome |]. split; [exact Hres |].
  split; [exact Hname |]. split; [exact Hlevel | exact Hnodup].
Defined.
